(** * flask_rest_jsonapi/resource.py: the request-dispatch engine

    A shallow embedding of the resource classes of
    [flask_rest_jsonapi/resource.py] (the dispatcher [Resource], and the
    handlers of [ResourceList], [ResourceDetail] and [Relationship]), with
    the properties of the specification stated and proved about it.

    Python values are an inductive type, Python's dynamic operators
    ([in], [x[k]], [x.get(k)], [==], truthiness, iteration) are total
    functions that return either a value or the exception Python raises, and
    the handlers run in a small state-and-exception monad whose state holds
    what a request can change: the options record of the resource class and
    the log of the calls made to the data layer.

    What [resource.py] imports is a parameter of the model: the exception
    classes and error helpers, the schema, the query-string manager, the
    pagination helper, Flask's [url_for], and the data layer.  The handlers
    are the methods as the file writes them, inside the decorators
    ([check_method_requirements], [check_headers], [add_headers]) that
    [decorators.py] puts around them.  The metaclasses run once, when a
    resource class is created; of what they do, the model has the binding of
    [Meta] to [cls.opts]. *)

From Stdlib Require Import String Ascii List ZArith Bool Lia.
Import ListNotations.
Open Scope string_scope.
Open Scope Z_scope.

Set Warnings "-register-all".


(** ** Python values *)

(** The values [request.get_json()] can return, which are also the values
    the handlers build and return.  JSON numbers are modelled as integers. *)
Inductive value : Type :=
| VNone
| VBool (b : bool)
| VInt (z : Z)
| VStr (s : string)
| VList (l : list value)
| VDict (d : list (string * value)).

(** A [dict] with string keys, in insertion order. *)
Definition dict : Type := list (string * value).

(** An object handed out by the data layer.  The resource classes use it
    only through [getattr]; attributes of builtin values are not part of
    the model. *)
Inductive obj : Type :=
| OVal (v : value)
| OObj (attrs : list (string * obj)).

Section Assoc.
Context {A : Type}.

(** [d.get(k)] on the association list of a dict. *)
Fixpoint lookup (k : string) (d : list (string * A)) : option A :=
  match d with
  | [] => None
  | (k', v) :: rest => if String.eqb k' k then Some v else lookup k rest
  end.

(** [d[k] = v]: an existing key keeps its place, a new key goes last. *)
Fixpoint set_key (k : string) (v : A) (d : list (string * A))
  : list (string * A) :=
  match d with
  | [] => [(k, v)]
  | (k', v') :: rest =>
      if String.eqb k' k then (k, v) :: rest
      else (k', v') :: set_key k v rest
  end.

(** [d.pop(k, None)], the dict that remains. *)
Fixpoint del_key (k : string) (d : list (string * A)) : list (string * A) :=
  match d with
  | [] => []
  | (k', v') :: rest =>
      if String.eqb k' k then rest else (k', v') :: del_key k rest
  end.

(** [d.update(d')]. *)
Definition update (d d' : list (string * A)) : list (string * A) :=
  fold_left (fun acc kv => set_key (fst kv) (snd kv) acc) d' d.
End Assoc.

(** ** Exceptions *)

(** The exception classes of [flask_rest_jsonapi.exceptions] that
    [resource.py] imports. *)
Inductive exc_class : Type :=
| BadRequest | InvalidType | InvalidField | InvalidInclude
| ObjectNotFound | RelationNotFound.

Definition exc_class_eqb (a b : exc_class) : bool :=
  match a, b with
  | BadRequest, BadRequest | InvalidType, InvalidType
  | InvalidField, InvalidField | InvalidInclude, InvalidInclude
  | ObjectNotFound, ObjectNotFound | RelationNotFound, RelationNotFound => true
  | _, _ => false
  end.

(** An instance of one of them: [cls(source, detail)], with the [status]
    attribute the handlers read as [e.status]. *)
Record JsonApiException : Type := mkExc {
  exc_cls : exc_class;
  exc_source : string;
  exc_detail : string;
  exc_status : Z }.

(** What a Python computation can raise here: the builtin errors of the
    dynamic operators, the failed [assert] of the dispatcher, the exceptions
    above, and the two exceptions of [schema.load] with their [messages]. *)
Inductive exn : Type :=
| TypeError
| AttributeError
| KeyError
| AssertionError
| UnboundLocalError
| JsonApi (e : JsonApiException)
| IncorrectTypeError (messages : value)
| ValidationError (messages : value).

Inductive outcome (A : Type) : Type :=
| Ok (a : A)
| Raise (e : exn).
Arguments Ok {A} a.
Arguments Raise {A} e.

Definition obind {A B} (m : outcome A) (k : A -> outcome B) : outcome B :=
  match m with
  | Ok a => k a
  | Raise e => Raise e
  end.

Declare Scope py_scope.
Delimit Scope py_scope with py.
Notation "x <- m ;; k" := (obind m (fun x => k))
  (at level 61, m at next level, right associativity) : py_scope.
Notation "m ;; k" := (obind m (fun _ => k))
  (at level 61, right associativity) : py_scope.
Open Scope py_scope.

(** ** Python's dynamic operators on values *)

(** [a == b].  [True == 1] holds in Python; dicts compare without regard to
    order. *)
Fixpoint py_eq (a b : value) {struct a} : bool :=
  match a, b with
  | VNone, VNone => true
  | VBool x, VBool y => Bool.eqb x y
  | VBool x, VInt y => Z.eqb (if x then 1 else 0) y
  | VInt x, VBool y => Z.eqb x (if y then 1 else 0)
  | VInt x, VInt y => Z.eqb x y
  | VStr x, VStr y => String.eqb x y
  | VList x, VList y =>
      (fix all2 (x y : list value) {struct x} : bool :=
         match x, y with
         | [], [] => true
         | a' :: x', b' :: y' => py_eq a' b' && all2 x' y'
         | _, _ => false
         end) x y
  | VDict x, VDict y =>
      Nat.eqb (length x) (length y) &&
      (fix each (x : list (string * value)) : bool :=
         match x with
         | [] => true
         | (k, v) :: x' =>
             match lookup k y with
             | Some w => py_eq v w && each x'
             | None => false
             end
         end) x
  | _, _ => false
  end.

(** [sub in s] for two strings. *)
Definition is_substring (sub s : string) : bool :=
  match String.index 0 sub s with
  | Some _ => true
  | None => match sub with EmptyString => true | _ => false end
  end.

Fixpoint chars (s : string) : list value :=
  match s with
  | EmptyString => []
  | String c rest => VStr (String c EmptyString) :: chars rest
  end.

(** [k in x] for a string [k]: key of a dict, element of a list, substring
    of a string; [TypeError] for what is not a container. *)
Definition py_in (k : string) (x : value) : outcome bool :=
  match x with
  | VDict d => Ok (match lookup k d with Some _ => true | None => false end)
  | VList l => Ok (existsb (py_eq (VStr k)) l)
  | VStr s => Ok (is_substring k s)
  | VNone | VBool _ | VInt _ => Raise TypeError
  end.

(** [x[k]] for a string [k]. *)
Definition py_getitem (x : value) (k : string) : outcome value :=
  match x with
  | VDict d => match lookup k d with Some v => Ok v | None => Raise KeyError end
  | _ => Raise TypeError
  end.

(** [x.get(k)]: only dicts have the method. *)
Definition py_get (x : value) (k : string) : outcome value :=
  match x with
  | VDict d => Ok (match lookup k d with Some v => v | None => VNone end)
  | _ => Raise AttributeError
  end.

(** [x[k] = v] for a string [k]. *)
Definition py_setitem (x : value) (k : string) (v : value) : outcome value :=
  match x with
  | VDict d => Ok (VDict (set_key k v d))
  | _ => Raise TypeError
  end.

(** The items [for y in x] runs through. *)
Definition py_iter (x : value) : outcome (list value) :=
  match x with
  | VList l => Ok l
  | VDict d => Ok (map (fun kv => VStr (fst kv)) d)
  | VStr s => Ok (chars s)
  | VNone | VBool _ | VInt _ => Raise TypeError
  end.

(** [if x:]. *)
Definition py_truthy (x : value) : bool :=
  match x with
  | VNone => false
  | VBool b => b
  | VInt z => negb (Z.eqb z 0)
  | VStr s => match s with EmptyString => false | _ => true end
  | VList l => match l with [] => false | _ => true end
  | VDict d => match d with [] => false | _ => true end
  end.

Definition is_dict (x : value) : bool :=
  match x with VDict _ => true | _ => false end.

Definition is_list (x : value) : bool :=
  match x with VList _ => true | _ => false end.

(** [for y in l: body y], stopping at the first exception. *)
Fixpoint for_each {A} (body : A -> outcome unit) (l : list A) : outcome unit :=
  match l with
  | [] => Ok tt
  | y :: rest => body y ;; for_each body rest
  end.

(** [s.lower()] on ASCII, which is where HTTP verbs live. *)
Definition lower_ascii (c : ascii) : ascii :=
  let n := nat_of_ascii c in
  if (Nat.leb 65 n && Nat.leb n 90)%bool then ascii_of_nat (n + 32) else c.

Fixpoint lower (s : string) : string :=
  match s with
  | EmptyString => EmptyString
  | String c rest => String (lower_ascii c) (lower rest)
  end.

(** [s.split('.')]. *)
Fixpoint split_dot (s : string) : list string :=
  match s with
  | EmptyString => [EmptyString]
  | String c rest =>
      if Ascii.eqb c "."%char then EmptyString :: split_dot rest
      else match split_dot rest with
           | h :: t => String c h :: t
           | [] => [String c EmptyString]
           end
  end.

(** [getattr(o, field)]. *)
Definition py_getattr (o : obj) (field : string) : outcome obj :=
  match o with
  | OObj attrs =>
      match lookup field attrs with
      | Some v => Ok v
      | None => Raise AttributeError
      end
  | OVal _ => Raise AttributeError
  end.

(** ** The state a request runs in *)

(** [cls.opts], the [Meta] class of the resource, which [ResourceMeta] binds
    when the class is created.  [getattr(self.opts, name, default)] reads a
    field that may be absent; a resource with no [Meta] has every field
    absent.  [endpoint_kwargs] maps each key of the related link to a dotted
    attribute path. *)
Record Meta : Type := mkMeta {
  schema_get_kwargs : option dict;
  schema_post_kwargs : option dict;
  schema_patch_kwargs : option dict;
  include_endpoint_kwargs : option value;
  related_id_field : option string;
  endpoint_kwargs : option (list (string * obj)) }.

Definition set_schema_get_kwargs (d : dict) (m : Meta) : Meta :=
  mkMeta (Some d) (schema_post_kwargs m) (schema_patch_kwargs m)
         (include_endpoint_kwargs m) (related_id_field m) (endpoint_kwargs m).

Definition set_schema_patch_kwargs (d : dict) (m : Meta) : Meta :=
  mkMeta (schema_get_kwargs m) (schema_post_kwargs m) (Some d)
         (include_endpoint_kwargs m) (related_id_field m) (endpoint_kwargs m).

Definition set_endpoint_kwargs (d : list (string * obj)) (m : Meta) : Meta :=
  mkMeta (schema_get_kwargs m) (schema_post_kwargs m) (schema_patch_kwargs m)
         (include_endpoint_kwargs m) (related_id_field m) (Some d).

(** [QSManager(request.args)]: the query-string manager built from the
    request's arguments. *)
Record QSManager : Type := mkQS { qs_args : value }.

(** A call of a method of [self.data_layer], with its arguments. *)
Inductive call : Type :=
| get_collection_call (qs : QSManager) (kwargs : dict)
| get_object_call (kwargs : dict)
| create_object_call (data : value) (kwargs : dict)
| update_object_call (o : obj) (data : value) (kwargs : dict)
| delete_object_call (o : obj) (kwargs : dict)
| get_relation_call (related_type_ related_id_field : string) (kwargs : dict)
| create_relation_call (json_data : value) (related_id_field : string)
                       (kwargs : dict)
| update_relation_call (json_data : value) (related_id_field : string)
                       (kwargs : dict)
| delete_relation_call (json_data : value) (related_id_field : string)
                       (kwargs : dict).

Record world : Type := mkWorld {
  w_opts : Meta;
  w_calls : list call }.

(** State and exceptions: what changed before an exception stays changed. *)
Definition M (A : Type) : Type := world -> outcome A * world.

Definition ret {A} (a : A) : M A := fun w => (Ok a, w).

Definition raise {A} (e : exn) : M A := fun w => (Raise e, w).

Definition lift {A} (m : outcome A) : M A := fun w => (m, w).

Definition mbind {A B} (m : M A) (k : A -> M B) : M B :=
  fun w =>
    match m w with
    | (Ok a, w') => k a w'
    | (Raise e, w') => (Raise e, w')
    end.

Definition get_opts : M Meta := fun w => (Ok (w_opts w), w).

Definition set_opts (m : Meta) : M unit :=
  fun w => (Ok tt, mkWorld m (w_calls w)).

(** A call of the data layer: it answers from the calls made so far, and
    joins them. *)
Definition call_dl {A} (c : call) (answer : list call -> outcome A) : M A :=
  fun w => (answer (w_calls w), mkWorld (w_opts w) (w_calls w ++ [c])).

(** [try: m  except (classes) as e: ...]: the exception caught, or the
    result of [m]. *)
Definition catching {A} (classes : list exc_class) (m : M A)
  : M (JsonApiException + A) :=
  fun w =>
    match m w with
    | (Ok a, w') => (Ok (inr a), w')
    | (Raise (JsonApi e), w') =>
        if existsb (exc_class_eqb (exc_cls e)) classes
        then (Ok (inl e), w')
        else (Raise (JsonApi e), w')
    | (Raise e, w') => (Raise e, w')
    end.

Declare Scope M_scope.
Delimit Scope M_scope with M.
Notation "x <- m ;; k" := (mbind m (fun x => k))
  (at level 61, m at next level, right associativity) : M_scope.
Notation "m ;; k" := (mbind m (fun _ => k))
  (at level 61, right associativity) : M_scope.

(** ** The request, the response, and the collaborators *)

(** Flask's [request]: the fields the handlers read. *)
Record request : Type := mkRequest {
  method : string;
  args : value;
  view_args : dict;
  get_json : value }.

(** A [werkzeug] response: the serialized body, the status and the headers
    the handler asked for. *)
Record Response : Type := mkResponse {
  body : string;
  status_code : value;
  headers : value }.

(** Flask's [make_response(body)] and [make_response(body, status, headers)]:
    the status is 200 and no header is added unless given. *)
Definition make_response (b : string) (status hdrs : option value)
  : Response :=
  mkResponse b
             (match status with Some s => s | None => VInt 200 end)
             (match hdrs with Some h => h | None => VDict [] end).

(** What a handler returns: a body, a tuple, or a response built already. *)
Inductive handler_result : Type :=
| HValue (v : value)
| HTuple (t : list value)
| HResponse (r : Response).

(** The attributes of a resource instance: [self.schema.opts.type_], the
    attribute [type_] when the resource class declares one,
    [self.related_type_], and the two endpoint names. *)
Record View : Type := mkView {
  schema_type_ : string;
  type_ : option value;
  related_type_ : string;
  endpoint : string;
  related_endpoint : string }.

(** What [resource.py] imports and calls: the error helpers, [json.dumps]
    and [url_for], the query-string manager, the schema of the resource
    with [compute_schema], the pagination helper, and the data layer of the
    resource.  [schema_new kwargs] is the schema made with these keyword
    arguments, and [schema_dump] gives the [data] of what [dump] returns.
    [compute_schema] is handed the dict of keyword arguments itself and
    may write into it: it answers with the schema or the exception, and
    with the dict as it leaves it.  A method of the data layer answers
    from its arguments and from the calls made before it;
    [update_object], which changes the object in place, answers with the
    object as it is afterwards.  The status of [InvalidType] is the one its
    class declares in [exceptions.py]. *)
Record Collaborators (Schema : Type) : Type := mkCollaborators {
  jsonapi_errors : list value -> value;
  to_dict : JsonApiException -> value;
  InvalidType_status : Z;
  json_dumps : value -> string;
  url_for : string -> list (string * obj) -> string;
  qs_include : QSManager -> list string;
  compute_schema : dict -> QSManager -> option (list string)
                   -> outcome Schema * dict;
  schema_new : dict -> Schema;
  schema_load : Schema -> value -> outcome (value * value);
  schema_dump : Schema -> obj -> value;
  add_pagination_links : value -> Z -> QSManager -> string -> value;
  url_field : string;
  get_collection : QSManager -> dict -> list call -> outcome (Z * obj);
  get_object : dict -> list call -> outcome obj;
  create_object : value -> dict -> list call -> outcome obj;
  update_object : obj -> value -> dict -> list call -> outcome obj;
  delete_object : obj -> dict -> list call -> outcome unit;
  get_relation : string -> string -> dict -> list call -> outcome (obj * value);
  create_relation : value -> string -> dict -> list call -> outcome unit;
  update_relation : value -> string -> dict -> list call -> outcome unit;
  delete_relation : value -> string -> dict -> list call -> outcome unit }.

Arguments jsonapi_errors {Schema} _ _.
Arguments to_dict {Schema} _ _.
Arguments InvalidType_status {Schema} _.
Arguments json_dumps {Schema} _ _.
Arguments url_for {Schema} _ _ _.
Arguments qs_include {Schema} _ _.
Arguments compute_schema {Schema} _ _ _ _.
Arguments schema_new {Schema} _ _.
Arguments schema_load {Schema} _ _ _.
Arguments schema_dump {Schema} _ _ _.
Arguments add_pagination_links {Schema} _ _ _ _ _.
Arguments url_field {Schema} _.
Arguments get_collection {Schema} _ _ _ _.
Arguments get_object {Schema} _ _ _.
Arguments create_object {Schema} _ _ _ _.
Arguments update_object {Schema} _ _ _ _ _.
Arguments delete_object {Schema} _ _ _ _.
Arguments get_relation {Schema} _ _ _ _ _.
Arguments create_relation {Schema} _ _ _ _ _.
Arguments update_relation {Schema} _ _ _ _ _.
Arguments delete_relation {Schema} _ _ _ _ _.

(** Modelled from the spec: [flask_rest_jsonapi/exceptions.py], which
    declares the status of each exception class, is not among the sources.
    The error taxonomy gives a malformed request the status 400. *)
Definition BadRequest_status : Z := 400.

(** [BadRequest(source, detail)]. *)
Definition BadRequest_ (source detail : string) : exn :=
  JsonApi (mkExc BadRequest source detail BadRequest_status).

(** [InvalidType(source, detail)], at the status its class declares. *)
Definition InvalidType_ {Schema} (E : Collaborators Schema)
           (source detail : string) : exn :=
  JsonApi (mkExc InvalidType source detail (InvalidType_status E)).

(** ** Shared pieces of the handlers *)

(** [s] between double quotes, for the messages that quote a key. *)
Definition quoted (s : string) : string :=
  String (ascii_of_nat 34) (s ++ String (ascii_of_nat 34) EmptyString).

Section Shared.
Context {Schema : Type} (E : Collaborators Schema).

(** [return jsonapi_errors([e.to_dict()]), e.status]. *)
Definition error_response (e : JsonApiException) : handler_result :=
  HTuple [jsonapi_errors E [to_dict E e]; VInt (exc_status e)].

(** [getattr(self.opts, 'related_id_field', 'id')]. *)
Definition related_id_field_of (opts : Meta) : string :=
  match related_id_field opts with Some f => f | None => "id" end.

(** The body of the loop over the items of a relationship document:
<<
    if 'type' not in obj:
        raise BadRequest('/data/type', 'Missing type in "data" node')
    if 'id' not in obj:
        raise BadRequest('/data/id', 'Missing id in "data" node')
    if obj['type'] != expected:
        raise InvalidType('/data/type', detail)
>>
    [expected] is the expression the item's type is compared with,
    evaluated after [obj['type']]. *)
Definition check_item (expected : outcome value) (detail : string)
           (o : value) : outcome unit :=
  (has_type <- py_in "type" o ;;
   if negb has_type
   then Raise (BadRequest_ "/data/type"
                 ("Missing type in " ++ quoted "data" ++ " node"))
   else
     has_id <- py_in "id" o ;;
     if negb has_id
     then Raise (BadRequest_ "/data/id"
                   ("Missing id in " ++ quoted "data" ++ " node"))
     else
       t <- py_getitem o "type" ;;
       t' <- expected ;;
       if negb (py_eq t t')
       then Raise (InvalidType_ E "/data/type" detail)
       else Ok tt)%py.

(** The [try] block of [Relationship.post] and of [Relationship.delete],
    which are the same text. *)
Definition check_list_document (type_ : string) (json_data : value)
  : outcome unit :=
  (has_data <- py_in "data" json_data ;;
   if negb has_data
   then Raise (BadRequest_ "/data"
                 ("You must provide data with a " ++ quoted "data"
                  ++ " route node"))
   else
     d <- py_get json_data "data" ;;
     if negb (is_list d)
     then Raise (BadRequest_ "/data" "You must provide data as list")
     else
       data <- py_getitem json_data "data" ;;
       items <- py_iter data ;;
       for_each
         (check_item (Ok (VStr type_))
            "The type provided does not match the resource type")
         items)%py.

(** The loops that stamp the errors of [schema.load]:
<<
    for error in errors['errors']:
        error['status'] = status
        error['title'] = title
>>
    The errors are changed in place, so the list under ['errors'] holds
    the stamped ones afterwards. *)
Definition stamp (status title : string) (error : value) : outcome value :=
  (e1 <- py_setitem error "status" (VStr status) ;;
   py_setitem e1 "title" (VStr title))%py.

Fixpoint stamp_all (status title : string) (errors : list value)
  : outcome (list value) :=
  match errors with
  | [] => Ok []
  | e :: rest =>
      (e' <- stamp status title e ;;
       rest' <- stamp_all status title rest ;;
       Ok (e' :: rest'))%py
  end.

Definition stamp_errors (status title : string) (errors : value)
  : outcome value :=
  (l <- py_getitem errors "errors" ;;
   match l with
   | VList items =>
       items' <- stamp_all status title items ;;
       py_setitem errors "errors" (VList items')
   | _ =>
       items <- py_iter l ;;
       _ <- stamp_all status title items ;;
       Ok errors
   end)%py.

(** The three exits of [schema.load] that [ResourceList.post] and
    [ResourceDetail.patch] turn into an error, in the same words:
<<
    try:
        data, errors = schema.load(json_data)
    except IncorrectTypeError as e: ... return errors, 409
    except ValidationError as e: ... return errors, 422
    if errors: ... return errors, 422
>>
    The result is the response to return, or the loaded data. *)
Definition load (schema : Schema) (json_data : value)
  : outcome (handler_result + value) :=
  match schema_load E schema json_data with
  | Raise (IncorrectTypeError messages) =>
      (errors <- stamp_errors "409" "Incorrect type" messages ;;
       Ok (inl (HTuple [errors; VInt 409])))%py
  | Raise (ValidationError messages) =>
      (errors <- stamp_errors "422" "Validation error" messages ;;
       Ok (inl (HTuple [errors; VInt 422])))%py
  | Raise e => Raise e
  | Ok (data, errors) =>
      if py_truthy errors
      then (errors' <- stamp_errors "422" "Validation error" errors ;;
            Ok (inl (HTuple [errors'; VInt 422])))%py
      else Ok (inr data)
  end.

(** [compute_schema(self.schema, schema_kwargs, qs, include)].  When
    [schema_kwargs] is the dict of the options itself, what
    [compute_schema] leaves in it is what [self.opts.schema_get_kwargs]
    holds afterwards, whether a schema or an exception comes out; a dict
    made for the call is dropped. *)
Definition compute_schema_on (of_options : bool) (schema_kwargs : dict)
           (qs : QSManager) (include : option (list string)) : M Schema :=
  fun w =>
    (fst (compute_schema E schema_kwargs qs include),
     if of_options
     then mkWorld (set_schema_get_kwargs
                     (snd (compute_schema E schema_kwargs qs include))
                     (w_opts w))
                  (w_calls w)
     else w).

(** Keyword arguments passed on to [url_for]. *)
Definition as_objs (kwargs : dict) : list (string * obj) :=
  map (fun kv => (fst kv, OVal (snd kv))) kwargs.
End Shared.

(** A handler: a method of a resource class named after an HTTP verb,
    applied to the request and to the keyword arguments of the route. *)
Definition handler : Type := request -> dict -> M handler_result.

(** ** class Resource *)

Module Resource.
Section Methods.
Context {Schema : Type} (E : Collaborators Schema).
Local Open Scope M_scope.

(** The end of [dispatch_request], from [isinstance(resp, Response)] on.
    The two [try] blocks unpack the tuple into local variables; a tuple
    that neither fits leaves [data] unbound. *)
Definition to_response (resp : handler_result) : outcome Response :=
  match resp with
  | HResponse r => Ok r
  | HValue v => Ok (make_response (json_dumps E v) None None)
  | HTuple t =>
      let unpacked3 :=
        match t with
        | [data; status_code; hdrs] => Some (data, status_code, hdrs)
        | _ => None
        end in
      let unpacked2 :=
        match t with
        | [data; status_code] => Some (data, status_code, VDict [])
        | _ => unpacked3
        end in
      match unpacked2 with
      | Some (data, status_code, hdrs) =>
          Ok (make_response (json_dumps E data)
                            (Some status_code) (Some hdrs))
      | None => Raise UnboundLocalError
      end
  end.

(** [dispatch_request]; [self name] is [getattr(self, name, None)]. *)
Definition dispatch_request (self : string -> option handler)
           (req : request) (kwargs : dict) : M Response :=
  let meth := self (lower (method req)) in
  let meth :=
    match meth with
    | None => if String.eqb (method req) "HEAD" then self "get" else None
    | Some _ => meth
    end in
  match meth with
  | None => raise AssertionError
  | Some meth =>
      resp <- meth req kwargs ;;
      lift (to_response resp)
  end.
End Methods.
End Resource.

(** ** class ResourceList *)

Module ResourceList.
Section Methods.
Context {Schema : Type} (E : Collaborators Schema) (self : View).
Local Open Scope M_scope.

Definition get : handler := fun req kwargs =>
  let qs := mkQS (args req) in
  counted <- call_dl (get_collection_call qs kwargs)
                     (get_collection E qs kwargs) ;;
  let object_count := fst counted in
  let objects := snd counted in
  opts <- get_opts ;;
  schema_kwargs <-
    match schema_get_kwargs opts with
    | Some d =>
        let d' := update d [("many", VBool true)] in
        set_opts (set_schema_get_kwargs d' opts) ;; ret d'
    | None => ret (update [] [("many", VBool true)])
    end ;;
  let of_options :=
    match schema_get_kwargs opts with Some _ => true | None => false end in
  computed <- catching [InvalidField]
                (compute_schema_on E of_options schema_kwargs qs None) ;;
  match computed with
  | inl e => ret (error_response E e)
  | inr schema =>
      let result_data := schema_dump E schema objects in
      opts <- get_opts ;;
      let endpoint_kwargs :=
        match include_endpoint_kwargs opts with
        | Some (VBool true) => view_args req
        | _ => []
        end in
      ret (HValue (add_pagination_links E result_data object_count qs
                     (url_for E (endpoint self) (as_objs endpoint_kwargs))))
  end.

Definition post : handler := fun req kwargs =>
  let json_data := get_json req in
  opts <- get_opts ;;
  let schema_kwargs :=
    match schema_post_kwargs opts with Some d => d | None => [] end in
  let schema := schema_new E schema_kwargs in
  loaded <- lift (load E schema json_data) ;;
  match loaded with
  | inl errors => ret errors
  | inr data =>
      o <- call_dl (create_object_call data kwargs)
                   (create_object E data kwargs) ;;
      ret (HTuple [schema_dump E schema o; VInt 201])
  end.

(** The attributes of the class that [getattr] finds under the name of a
    verb. *)
Definition getattr (name : string) : option handler :=
  if String.eqb name "get" then Some get
  else if String.eqb name "post" then Some post
  else None.
End Methods.
End ResourceList.

(** ** class ResourceDetail *)

Module ResourceDetail.
Section Methods.
Context {Schema : Type} (E : Collaborators Schema) (self : View).
Local Open Scope M_scope.

Definition get : handler := fun req kwargs =>
  found <- catching [ObjectNotFound]
             (call_dl (get_object_call kwargs) (get_object E kwargs)) ;;
  match found with
  | inl e => ret (error_response E e)
  | inr o =>
      let qs := mkQS (args req) in
      opts <- get_opts ;;
      let schema_kwargs :=
        match schema_get_kwargs opts with Some d => d | None => [] end in
      let of_options :=
        match schema_get_kwargs opts with
        | Some _ => true
        | None => false
        end in
      computed <- catching [InvalidField; InvalidInclude]
                    (compute_schema_on E of_options schema_kwargs qs
                       (Some (qs_include E qs))) ;;
      match computed with
      | inl e => ret (error_response E e)
      | inr schema => ret (HValue (schema_dump E schema o))
      end
  end.

(** The [try] block of [patch] that compares the two identifiers. *)
Definition check_id (json_data : value) (kwargs : dict) : outcome unit :=
  (data <- py_getitem json_data "data" ;;
   has_id <- py_in "id" data ;;
   if negb has_id
   then Raise (BadRequest_ "/data/id"
                 ("Missing id in " ++ quoted "data" ++ " node"))
   else
     data <- py_getitem json_data "data" ;;
     i <- py_getitem data "id" ;;
     route_id <- py_getitem (VDict kwargs) (url_field E) ;;
     if negb (py_eq i route_id)
     then Raise (BadRequest_ "/data/id"
            "Value of id does not match the resource identifier in url")
     else Ok tt)%py.

Definition patch : handler := fun req kwargs =>
  let json_data := get_json req in
  opts <- get_opts ;;
  schema_kwargs <-
    match schema_patch_kwargs opts with
    | Some d =>
        let d' := del_key "partial" d in
        set_opts (set_schema_patch_kwargs d' opts) ;; ret d'
    | None => ret (del_key "partial" [])
    end ;;
  let schema := schema_new E (("partial", VBool true) :: schema_kwargs) in
  loaded <- lift (load E schema json_data) ;;
  match loaded with
  | inl errors => ret errors
  | inr data =>
      checked <- catching [BadRequest] (lift (check_id json_data kwargs)) ;;
      match checked with
      | inl e => ret (error_response E e)
      | inr _ =>
          found <- catching [ObjectNotFound]
                     (call_dl (get_object_call kwargs)
                              (get_object E kwargs)) ;;
          match found with
          | inl e => ret (error_response E e)
          | inr o =>
              o' <- call_dl (update_object_call o data kwargs)
                            (update_object E o data kwargs) ;;
              ret (HValue (schema_dump E schema o'))
          end
      end
  end.

Definition delete : handler := fun req kwargs =>
  found <- catching [ObjectNotFound]
             (call_dl (get_object_call kwargs) (get_object E kwargs)) ;;
  match found with
  | inl e => ret (error_response E e)
  | inr o =>
      call_dl (delete_object_call o kwargs) (delete_object E o kwargs) ;;
      ret (HTuple [VStr EmptyString; VInt 204])
  end.

Definition getattr (name : string) : option handler :=
  if String.eqb name "get" then Some get
  else if String.eqb name "patch" then Some patch
  else if String.eqb name "delete" then Some delete
  else None.
End Methods.
End ResourceDetail.

(** ** class Relationship *)

Module Relationship.
Section Methods.
Context {Schema : Type} (E : Collaborators Schema) (self : View).
Local Open Scope M_scope.

(** The inner loop of [get]: the attribute path [value.split('.')]
    followed from [o]. *)
Fixpoint follow (o : obj) (fields : list string) : outcome obj :=
  match fields with
  | [] => Ok o
  | field :: rest => (o' <- py_getattr o field ;; follow o' rest)%py
  end.

(** [value.split('.')] for a value of the [endpoint_kwargs] dict: only a
    string has the method. *)
Definition split_value (v : obj) : outcome (list string) :=
  match v with
  | OVal (VStr s) => Ok (split_dot s)
  | _ => Raise AttributeError
  end.

(** The outer loop of [get], over the items of a copy of
    [self.opts.endpoint_kwargs]; each turn writes the resolved value into
    [self.opts.endpoint_kwargs] itself. *)
Fixpoint resolve_endpoint_kwargs (o : obj) (items : list (string * obj))
  : M unit :=
  match items with
  | [] => ret tt
  | (key, v) :: rest =>
      fields <- lift (split_value v) ;;
      endpoint_kwargs_value <- lift (follow o fields) ;;
      opts <- get_opts ;;
      set_opts (set_endpoint_kwargs
                  (set_key key endpoint_kwargs_value
                     (match endpoint_kwargs opts with
                      | Some d => d
                      | None => []
                      end))
                  opts) ;;
      resolve_endpoint_kwargs o rest
  end.

Definition get : handler := fun req kwargs =>
  opts <- get_opts ;;
  let related_id_field := related_id_field_of opts in
  found <- catching [RelationNotFound; ObjectNotFound]
             (call_dl (get_relation_call (related_type_ self)
                         related_id_field kwargs)
                      (get_relation E (related_type_ self)
                         related_id_field kwargs)) ;;
  match found with
  | inl e => ret (error_response E e)
  | inr (o, data) =>
      related_endpoint_kwargs <-
        match endpoint_kwargs opts with
        | Some template =>
            resolve_endpoint_kwargs o template ;;
            opts' <- get_opts ;;
            ret (match endpoint_kwargs opts' with
                 | Some d => d
                 | None => []
                 end)
        | None => ret (as_objs kwargs)
        end ;;
      let result :=
        [("links",
          VDict [("self",
                  VStr (url_for E (endpoint self) (as_objs kwargs)));
                 ("related",
                  VStr (url_for E (related_endpoint self)
                          related_endpoint_kwargs))]);
         ("data", data)] in
      let qs := mkQS (args req) in
      match qs_include E qs with
      | [] => ret (HValue (VDict result))
      | _ :: _ =>
          computed <- catching [InvalidField; InvalidInclude]
                        (compute_schema_on E false [] qs
                           (Some (qs_include E qs))) ;;
          match computed with
          | inl e => ret (error_response E e)
          | inr schema =>
              included <- lift (py_getitem (schema_dump E schema o)
                                           "included") ;;
              ret (HValue (VDict (set_key "included" included result)))
          end
      end
  end.

(** What follows the [try] block of a mutator: the call of the data
    layer, whose not-found exceptions become an error response. *)
Definition forward (classes : list exc_class) (c : call)
           (answer : list call -> outcome unit) : M handler_result :=
  done <- catching classes (call_dl c answer) ;;
  match done with
  | inl e => ret (error_response E e)
  | inr _ => ret (HValue (VStr EmptyString))
  end.

Definition post : handler := fun req kwargs =>
  let json_data := get_json req in
  let type_ := schema_type_ self in
  checked <- catching [BadRequest; InvalidType]
               (lift (check_list_document E type_ json_data)) ;;
  match checked with
  | inl e => ret (error_response E e)
  | inr _ =>
      opts <- get_opts ;;
      let related_id_field := related_id_field_of opts in
      forward [RelationNotFound; ObjectNotFound]
        (create_relation_call json_data related_id_field kwargs)
        (create_relation E json_data related_id_field kwargs)
  end.

(** [self.type_]: an attribute the resource class may or may not have. *)
Definition self_type_ : outcome value :=
  match type_ self with
  | Some t => Ok t
  | None => Raise AttributeError
  end.

(** The [try] block of [patch]. *)
Definition check_document (type_ : string) (json_data : value)
  : outcome unit :=
  (has_data <- py_in "data" json_data ;;
   if negb has_data
   then Raise (BadRequest_ "/data"
                 ("You must provide data with a " ++ quoted "data"
                  ++ " route node"))
   else
     data <- py_getitem json_data "data" ;;
     (if is_dict data
      then
        has_type <- py_in "type" data ;;
        if negb has_type
        then Raise (BadRequest_ "/data/type"
                      ("Missing type in " ++ quoted "data" ++ " node"))
        else
          has_id <- py_in "id" data ;;
          if negb has_id
          then Raise (BadRequest_ "/data/id"
                        ("Missing id in " ++ quoted "data" ++ " node"))
          else
            t <- py_getitem data "type" ;;
            if negb (py_eq t (VStr type_))
            then Raise (InvalidType_ E "/data/type"
                   "The type field does not match the resource type")
            else Ok tt
      else Ok tt) ;;
     data <- py_getitem json_data "data" ;;
     if is_list data
     then
       for_each
         (check_item E self_type_
            "The type provided does not match the resource type")
         match data with VList items => items | _ => [] end
     else Ok tt)%py.

Definition patch : handler := fun req kwargs =>
  let json_data := get_json req in
  let type_ := schema_type_ self in
  checked <- catching [BadRequest; InvalidType]
               (lift (check_document type_ json_data)) ;;
  match checked with
  | inl e => ret (error_response E e)
  | inr _ =>
      opts <- get_opts ;;
      let related_id_field := related_id_field_of opts in
      forward [RelationNotFound; ObjectNotFound]
        (update_relation_call json_data related_id_field kwargs)
        (update_relation E json_data related_id_field kwargs)
  end.

Definition delete : handler := fun req kwargs =>
  let json_data := get_json req in
  let type_ := schema_type_ self in
  checked <- catching [BadRequest; InvalidType]
               (lift (check_list_document E type_ json_data)) ;;
  match checked with
  | inl e => ret (error_response E e)
  | inr _ =>
      opts <- get_opts ;;
      let related_id_field := related_id_field_of opts in
      forward [RelationNotFound]
        (delete_relation_call json_data related_id_field kwargs)
        (delete_relation E json_data related_id_field kwargs)
  end.

Definition getattr (name : string) : option handler :=
  if String.eqb name "get" then Some get
  else if String.eqb name "post" then Some post
  else if String.eqb name "patch" then Some patch
  else if String.eqb name "delete" then Some delete
  else None.
End Methods.
End Relationship.

(** ** The metaclasses *)

(** A decorator, as the [Meta] of a resource lists them: it takes a handler
    and gives the handler to bind in its place. *)
Definition decorator : Type := handler -> handler.

(** A data-layer class: its name, and whether [BaseDataLayer] is in its
    [inspect.getmro]. *)
Record DataLayerClass : Type := mkDataLayerClass {
  dlc_name : string;
  inherits_BaseDataLayer : bool }.

Definition SqlalchemyDataLayer : DataLayerClass :=
  mkDataLayerClass "SqlalchemyDataLayer" true.

(** The [Meta] class of a resource: the attributes the metaclasses read
    when the resource class is created, each of which may be absent, and
    the options the handlers read at each request.  [data_layer] is
    absent, or [None], or a class. *)
Record MetaClass : Type := mkMetaClass {
  data_layer : option (option DataLayerClass);
  not_allowed_methods : option (list string);
  get_decorators : option (list decorator);
  post_decorators : option (list decorator);
  patch_decorators : option (list decorator);
  delete_decorators : option (list decorator);
  options : Meta }.

(** The data layer a resource class gets: an instance of the class
    [type('%sDataLayer' % name, (data_layer_cls, ), dict())], made with the
    keyword arguments [data_layer_kwargs], on which [configure(meta)] has
    been called, and whose [resource] is the class once it is bound. *)
Record DataLayerInstance : Type := mkDataLayerInstance {
  dl_type_name : string;
  dl_base : DataLayerClass;
  dl_kwargs : dict;
  dl_configured_with : option MetaClass;
  dl_resource : option string }.

(** A resource class while its metaclass initialises it: the handlers
    [getattr(cls, name)] finds, its own or inherited, [cls.data_layer] and
    [cls.opts]. *)
Record Class : Type := mkClass {
  cls_attr : string -> option handler;
  cls_data_layer : option DataLayerInstance;
  cls_opts : option MetaClass }.

(** The namespace of the class statement, [nmspc]: the two keys the
    metaclasses look up. *)
Record Namespace : Type := mkNamespace {
  Meta_ : option MetaClass;
  data_layer_kwargs : option value }.

(** What stops the creation of a class: [Exception(message)] raised by
    [ResourceMeta], the [AttributeError] of [cls.get] and the like on a
    class without the attribute, the [TypeError] of [type] on a base that
    is no class, or what the data layer raises when it is made or
    configured. *)
Inductive class_error : Type :=
| Exception_ (message : string)
| NoAttribute (name : string)
| TypeError_
| DataLayerError (message : string).

Inductive created : Type :=
| Created (cls : Class)
| Failed (e : class_error).

(** [setattr(cls, name, h)]. *)
Definition setattr (cls : Class) (name : string) (h : handler) : Class :=
  mkClass (fun n => if String.eqb n name then Some h else cls_attr cls n)
          (cls_data_layer cls) (cls_opts cls).

(** The loops of the three metaclasses of the endpoint kinds, which are
    the same text for each verb:
<<
    for get_decorator in get_decorators:
        cls.get = get_decorator(cls.get)
>>
*)
Fixpoint decorate (name : string) (decorators : list decorator) (cls : Class)
  : created :=
  match decorators with
  | [] => Created cls
  | d :: rest =>
      match cls_attr cls name with
      | Some h => decorate name rest (setattr cls name (d h))
      | None => Failed (NoAttribute name)
      end
  end.

(** [getattr(meta, name, [])] for a list of decorators or of methods. *)
Definition or_empty {A} (l : option (list A)) : list A :=
  match l with Some l => l | None => [] end.

Definition and_then (c : created) (k : Class -> created) : created :=
  match c with
  | Created cls => k cls
  | Failed e => Failed e
  end.

Module ResourceMeta.
Section Init.
(** [not_allowed_method] of [decorators.py], and the two calls into the
    data-layer class, which may raise: [construct c kwargs] is the call of
    the class derived from [c] on the keyword arguments, [configure c kwargs
    meta] the call of [configure(meta)] on the instance it made. *)
Context (not_allowed_method : decorator)
        (construct : DataLayerClass -> dict -> option class_error)
        (configure : DataLayerClass -> dict -> option MetaClass
                     -> option class_error).

(** The loop over [not_allowed_methods]:
<<
    for method in not_allowed_methods:
        if hasattr(cls, method.lower()):
            setattr(cls, method.lower(),
                    not_allowed_method(getattr(cls, method.lower())))
>>
*)
Fixpoint disable (methods : list string) (cls : Class) : Class :=
  match methods with
  | [] => cls
  | m :: rest =>
      disable rest
        (match cls_attr cls (lower m) with
         | Some h => setattr cls (lower m) (not_allowed_method h)
         | None => cls
         end)
  end.

(** [__init__(cls, name, bases, nmspc)], after [MethodViewType] has made
    the class [cls]. *)
Definition __init__ (cls : Class) (name : string) (nmspc : Namespace)
  : created :=
  let meta := Meta_ nmspc in
  let alternative_data_layer_cls :=
    match meta with
    | Some m => match data_layer m with Some c => c | None => None end
    | None => None
    end in
  if match alternative_data_layer_cls with
     | Some c => negb (inherits_BaseDataLayer c)
     | None => false
     end
  then Failed (Exception_
                 ("You must provide a data layer class inherited from "
                  ++ "BaseDataLayer in " ++ name ++ " resource"))
  else
    let finish (made : option DataLayerInstance) : created :=
      let cls :=
        match made with
        | Some i =>
            mkClass (cls_attr cls)
                    (Some (mkDataLayerInstance (dl_type_name i) (dl_base i)
                             (dl_kwargs i) (dl_configured_with i)
                             (Some name)))
                    (cls_opts cls)
        | None => cls
        end in
      let cls :=
        match meta with
        | Some m => disable (or_empty (not_allowed_methods m)) cls
        | None => cls
        end in
      Created (mkClass (cls_attr cls) (cls_data_layer cls) meta) in
    match data_layer_kwargs nmspc with
    | None | Some VNone => finish None
    | Some (VDict kwargs) =>
        match match meta with Some m => data_layer m | None => None end with
        | Some None => Failed TypeError_
        | named =>
            let data_layer_cls :=
              match named with
              | Some (Some c) => c
              | _ => SqlalchemyDataLayer
              end in
            match construct data_layer_cls kwargs with
            | Some e => Failed e
            | None =>
                match configure data_layer_cls kwargs meta with
                | Some e => Failed e
                | None =>
                    finish (Some (mkDataLayerInstance (name ++ "DataLayer")
                                    data_layer_cls kwargs meta None))
                end
            end
        end
    | Some _ =>
        Failed (Exception_
                  ("You must provide data layer information as dictionary in "
                   ++ name ++ " resource"))
    end.
End Init.
End ResourceMeta.

Module ResourceListMeta.
Definition __init__ (not_allowed_method : decorator)
           (construct : DataLayerClass -> dict -> option class_error)
           (configure : DataLayerClass -> dict -> option MetaClass
                        -> option class_error)
           (cls : Class) (name : string) (nmspc : Namespace) : created :=
  and_then (ResourceMeta.__init__ not_allowed_method construct configure cls
              name nmspc)
    (fun cls =>
       match Meta_ nmspc with
       | None => Created cls
       | Some meta =>
           and_then (decorate "get" (or_empty (get_decorators meta)) cls)
             (decorate "post" (or_empty (post_decorators meta)))
       end).
End ResourceListMeta.

Module ResourceDetailMeta.
Definition __init__ (not_allowed_method : decorator)
           (construct : DataLayerClass -> dict -> option class_error)
           (configure : DataLayerClass -> dict -> option MetaClass
                        -> option class_error)
           (cls : Class) (name : string) (nmspc : Namespace) : created :=
  and_then (ResourceMeta.__init__ not_allowed_method construct configure cls
              name nmspc)
    (fun cls =>
       match Meta_ nmspc with
       | None => Created cls
       | Some meta =>
           and_then (decorate "get" (or_empty (get_decorators meta)) cls)
             (fun cls =>
                and_then
                  (decorate "patch" (or_empty (patch_decorators meta)) cls)
                  (decorate "delete" (or_empty (delete_decorators meta))))
       end).
End ResourceDetailMeta.

Module ResourceRelationshipMeta.
Definition __init__ (not_allowed_method : decorator)
           (construct : DataLayerClass -> dict -> option class_error)
           (configure : DataLayerClass -> dict -> option MetaClass
                        -> option class_error)
           (cls : Class) (name : string) (nmspc : Namespace) : created :=
  and_then (ResourceMeta.__init__ not_allowed_method construct configure cls
              name nmspc)
    (fun cls =>
       match Meta_ nmspc with
       | None => Created cls
       | Some meta =>
           and_then (decorate "get" (or_empty (get_decorators meta)) cls)
             (fun cls =>
                and_then
                  (decorate "post" (or_empty (post_decorators meta)) cls)
                  (fun cls =>
                     and_then
                       (decorate "patch" (or_empty (patch_decorators meta))
                          cls)
                       (decorate "delete"
                          (or_empty (delete_decorators meta)))))
       end).
End ResourceRelationshipMeta.

(** ** A concrete set of collaborators

    Enough of a data layer and of a schema to run the handlers on example
    requests: the data layer always finds the same object, the schema
    accepts every document, and the error helpers build the error object
    and the envelope of the JSON:API format. *)

Module Example.
Definition person : obj :=
  OObj [("id", OVal (VInt 7));
        ("computer", OObj [("id", OVal (VInt 3))])].

Definition envelope (errors : list value) : value :=
  VDict [("errors", VList errors)].

Definition error_object (e : JsonApiException) : value :=
  VDict [("status", VInt (exc_status e));
         ("source", VDict [("pointer", VStr (exc_source e))]);
         ("detail", VStr (exc_detail e))].

Definition dumps (v : value) : string :=
  match v with VStr s => s | _ => "{}" end.

Definition collaborators
           (compute : dict -> QSManager -> option (list string)
                      -> outcome unit)
           (load : value -> outcome (value * value))
  : Collaborators unit :=
  {| jsonapi_errors := envelope;
     to_dict := error_object;
     InvalidType_status := 409;
     json_dumps := dumps;
     url_for := fun endpoint _ => endpoint;
     qs_include := fun _ => [];
     compute_schema := fun kwargs qs include =>
                         (compute kwargs qs include, kwargs);
     schema_new := fun _ => tt;
     schema_load := fun _ => load;
     schema_dump := fun _ _ => VDict [("data", VNone)];
     add_pagination_links := fun data _ _ _ => data;
     url_field := "id";
     get_collection := fun _ _ _ => Ok (0, OVal (VList []));
     get_object := fun _ _ => Ok person;
     create_object := fun _ _ _ => Ok person;
     update_object := fun o _ _ _ => Ok o;
     delete_object := fun _ _ _ => Ok tt;
     get_relation := fun _ _ _ _ => Ok (person, VNone);
     create_relation := fun _ _ _ _ => Ok tt;
     update_relation := fun _ _ _ _ => Ok tt;
     delete_relation := fun _ _ _ _ => Ok tt |}.

(** Every schema is computed, every document loads. *)
Definition plain : Collaborators unit :=
  collaborators (fun _ _ _ => Ok tt) (fun doc => Ok (doc, VDict [])).

Definition no_meta : Meta := mkMeta None None None None None None.

Definition start : world := mkWorld no_meta [].

(** A relationship resource of persons, with and without an attribute
    [type_] of its own. *)
Definition persons : View :=
  mkView "person" None "computer" "person_computers" "computer_list".

Definition persons_typed (t : string) : View :=
  mkView "person" (Some (VStr t)) "computer" "person_computers"
         "computer_list".

Definition request_of (verb : string) (doc : value) : request :=
  mkRequest verb (VDict []) [] doc.

Definition linkage (t i : string) : value :=
  VDict [("type", VStr t); ("id", VStr i)].

Definition document (data : value) : value := VDict [("data", data)].
(** The messages of a schema that reports two errors. *)
Definition reported : list value :=
  [VDict [("detail", VStr "Invalid type");
          ("source", VDict [("pointer", VStr "/data/type")])];
   VDict [("detail", VStr "Not a valid string");
          ("source", VDict [("pointer", VStr "/data/attributes/name")])]].

Definition messages : value := VDict [("errors", VList reported)].

(** A schema that rejects the type of every document, one that raises
    for the fields of every document, and one that returns the errors of
    the fields beside the data. *)
Definition wrong_type : Collaborators unit :=
  collaborators (fun _ _ _ => Ok tt)
                (fun _ => Raise (IncorrectTypeError messages)).

Definition invalid_raised : Collaborators unit :=
  collaborators (fun _ _ _ => Ok tt)
                (fun _ => Raise (ValidationError messages)).

Definition invalid_returned : Collaborators unit :=
  collaborators (fun _ _ _ => Ok tt) (fun _ => Ok (VNone, messages)).

(** A schema whose fields cannot be selected. *)
Definition invalid_field : JsonApiException :=
  mkExc InvalidField "fields" "The schema has no such attribute" 400.

Definition unselectable : Collaborators unit :=
  collaborators (fun _ _ _ => Raise (JsonApi invalid_field))
                (fun doc => Ok (doc, VDict [])).
(** Options whose [endpoint_kwargs] take the key [id] of the related link
    from the attribute path [computer.id] of the object. *)
Definition templated : Meta :=
  mkMeta None None None None None (Some [("id", OVal (VStr "computer.id"))]).
(** A handler that returns a tuple of one element. *)
Definition one_tuple : handler := fun _ _ => ret (HTuple [VNone]).

(** A not-found exception of a data layer, at the status it chooses. *)
Definition not_found (cls : exc_class) : JsonApiException :=
  mkExc cls EmptyString "Nothing under this identifier" 404.

(** Collaborators with another data layer and another way to read the
    included relationships of the query string. *)
Definition with_data_layer (base : Collaborators unit)
           (include : QSManager -> list string)
           (fetch_all : outcome (Z * obj)) (fetch : outcome obj)
           (relation : outcome (obj * value)) (change : outcome unit)
  : Collaborators unit :=
  {| jsonapi_errors := jsonapi_errors base;
     to_dict := to_dict base;
     InvalidType_status := InvalidType_status base;
     json_dumps := json_dumps base;
     url_for := url_for base;
     qs_include := include;
     compute_schema := compute_schema base;
     schema_new := schema_new base;
     schema_load := schema_load base;
     schema_dump := schema_dump base;
     add_pagination_links := add_pagination_links base;
     url_field := url_field base;
     get_collection := fun _ _ _ => fetch_all;
     get_object := fun _ _ => fetch;
     create_object := create_object base;
     update_object := update_object base;
     delete_object := delete_object base;
     get_relation := fun _ _ _ _ => relation;
     create_relation := fun _ _ _ _ => change;
     update_relation := fun _ _ _ _ => change;
     delete_relation := fun _ _ _ _ => change |}.

(** A data layer that finds nothing. *)
Definition absent : Collaborators unit :=
  with_data_layer plain (fun _ => [])
    (Raise (JsonApi (not_found ObjectNotFound)))
    (Raise (JsonApi (not_found ObjectNotFound)))
    (Raise (JsonApi (not_found RelationNotFound)))
    (Raise (JsonApi (not_found ObjectNotFound))).

(** A query string that always asks for the computers to be included,
    with the schema of [plain], whose dump has no included part. *)
Definition including : Collaborators unit :=
  with_data_layer plain (fun _ => ["computer"])
    (Ok (0, OVal (VList []))) (Ok person) (Ok (person, VNone)) (Ok tt).

(** A schema that raises [InvalidInclude]. *)
Definition invalid_include : JsonApiException :=
  mkExc InvalidInclude "include" "The schema has no such relationship" 400.

Definition unincludable : Collaborators unit :=
  collaborators (fun _ _ _ => Raise (JsonApi invalid_include))
                (fun doc => Ok (doc, VDict [])).

(** A schema whose messages are the plain ones of marshmallow, a dict from
    field names to lists of messages. *)
Definition plain_messages : value :=
  VDict [("name", VList [VStr "Missing data for required field."])].

Definition invalid_plain : Collaborators unit :=
  collaborators (fun _ _ _ => Ok tt)
                (fun _ => Raise (ValidationError plain_messages)).


(** Options whose related link takes two keys from the object, and options
    whose second path leads nowhere. *)
Definition two_keys : Meta :=
  mkMeta None None None None None
         (Some [("person_id", OVal (VStr "id"));
                ("id", OVal (VStr "computer.id"))]).

Definition broken_path : Meta :=
  mkMeta None None None None None
         (Some [("person_id", OVal (VStr "id"));
                ("id", OVal (VStr "computer.serial"))]).

(** The handler [not_allowed_method] puts in the place of another, and a
    decorator that answers before the handler it wraps runs. *)
Definition refused : decorator :=
  fun _ _ _ => ret (HTuple [VStr "Method not allowed"; VInt 405]).

Definition guarded : decorator :=
  fun h req kwargs =>
    match get_json req with
    | VNone => ret (HTuple [VStr "Unauthorized"; VInt 401])
    | _ => h req kwargs
    end.

(** A collection class as [MethodViewType] leaves it, and the [Meta] of
    its class statement. *)
Definition collection : Class :=
  mkClass (ResourceList.getattr plain persons) None None.

Definition meta_of (disabled : list string) (on_get : list decorator)
  : MetaClass :=
  mkMetaClass None (Some disabled) (Some on_get) None None None no_meta.

(** A data layer that is made from any arguments, and one that wants a
    session among them. *)
Definition made : DataLayerClass -> dict -> option class_error :=
  fun _ _ => None.

Definition configured_ : DataLayerClass -> dict -> option MetaClass
                         -> option class_error :=
  fun _ _ _ => None.

Definition wants_session : DataLayerClass -> dict -> option MetaClass
                           -> option class_error :=
  fun _ kwargs _ =>
    match lookup "session" kwargs with
    | Some _ => None
    | None => Some (DataLayerError "You must provide a session")
    end.

End Example.

(** ** Vocabulary of the properties *)

(** [e'] is the error object [e] after
    [e['status'] = status; e['title'] = title]. *)
Definition stamped (status title : string) (e e' : value) : Prop :=
  exists d : dict,
    e = VDict d
    /\ e' = VDict (set_key "title" (VStr title)
                     (set_key "status" (VStr status) d)).

(** The error object [e'] carries this status and this title. *)
Definition carries (status title : string) (e' : value) : Prop :=
  py_getitem e' "status" = Ok (VStr status)
  /\ py_getitem e' "title" = Ok (VStr title).

(** [schema.load(doc)] reports field errors in [messages]: by raising
    [ValidationError], or by returning them beside the data. *)
Definition fails_validation {Schema} (E : Collaborators Schema)
           (schema : Schema) (doc messages : value) : Prop :=
  schema_load E schema doc = Raise (ValidationError messages)
  \/ exists data : value,
      schema_load E schema doc = Ok (data, messages)
      /\ py_truthy messages = true.

(** [schema.load(doc)] returns [data] and no error. *)
Definition passes_validation {Schema} (E : Collaborators Schema)
           (schema : Schema) (doc data : value) : Prop :=
  exists errors : value,
    schema_load E schema doc = Ok (data, errors)
    /\ py_truthy errors = false.

(** The schema [ResourceList.post] loads the document with, and the one
    [ResourceDetail.patch] does. *)
Definition post_schema {Schema} (E : Collaborators Schema) (opts : Meta)
  : Schema :=
  schema_new E
    (match schema_post_kwargs opts with Some d => d | None => [] end).

Definition patch_schema {Schema} (E : Collaborators Schema) (opts : Meta)
  : Schema :=
  schema_new E
    (("partial", VBool true)
       :: del_key "partial"
            (match schema_patch_kwargs opts with Some d => d | None => [] end)).

(** The item [item] of [endpoint_kwargs] is a dotted path that leads from
    [o] to the value of [resolved], under the same key. *)
Definition resolves (o : obj) (item resolved : string * obj) : Prop :=
  fst resolved = fst item
  /\ exists path : string,
      snd item = OVal (VStr path)
      /\ Relationship.follow o (split_dot path) = Ok (snd resolved).

(** The item [item] of [endpoint_kwargs] raises [x] on [o]: it is no
    string, or its path leaves the object. *)
Definition breaks (o : obj) (item : string * obj) (x : exn) : Prop :=
  obind (Relationship.split_value (snd item)) (Relationship.follow o)
  = Raise x.

(** How many of the [methods] name the attribute [name], whatever their
    case. *)
Definition disabled_times (methods : list string) (name : string) : nat :=
  length (filter (fun m => String.eqb (lower m) name) methods).

(** The error object [e'] has every key of [e] but [status] and [title]
    as [e] has it. *)
Definition keeps_other_keys (e e' : value) : Prop :=
  forall k : string,
    k <> "status" -> k <> "title" -> py_getitem e' k = py_getitem e k.

(** An item of a relationship document is well formed for the type
    [type_]: a dict whose [type] is that string and which has an [id]. *)
Definition well_formed_item (type_ : string) (o : value) : Prop :=
  exists d : dict,
    o = VDict d
    /\ lookup "type" d = Some (VStr type_)
    /\ lookup "id" d <> None.

(** The document is refused by [schema.load] with [messages], at
    [status]: for its type at 409, for its fields at 422. *)
Definition refused_with {Schema} (E : Collaborators Schema)
           (schema : Schema) (doc messages : value) (status : Z) : Prop :=
  (schema_load E schema doc = Raise (IncorrectTypeError messages)
   /\ status = 409)
  \/ (fails_validation E schema doc messages /\ status = 422).


(** ** Properties *)

(** *** Association lists *)

Section AssocFacts.
Context {A : Type}.

Lemma lookup_set_key_same (k : string) (v : A) (d : list (string * A)) :
  lookup k (set_key k v d) = Some v.
Proof.
  induction d as [|[k' v'] rest IH]; simpl.
  - now rewrite String.eqb_refl.
  - destruct (String.eqb k' k) eqn:Hk; simpl.
    + now rewrite String.eqb_refl.
    + now rewrite Hk.
Qed.

Lemma lookup_set_key_other (k k0 : string) (v : A) (d : list (string * A)) :
  k0 <> k -> lookup k (set_key k0 v d) = lookup k d.
Proof.
  intros Hne.
  assert (Hk0 : String.eqb k0 k = false) by now apply String.eqb_neq.
  induction d as [|[k' v'] rest IH]; simpl.
  - now rewrite Hk0.
  - destruct (String.eqb k' k0) eqn:Hk; simpl.
    + apply String.eqb_eq in Hk; subst k'. now rewrite Hk0.
    + destruct (String.eqb k' k); [reflexivity | exact IH].
Qed.
End AssocFacts.

(** *** The monad *)

Ltac run :=
  unfold mbind, catching, lift, ret, raise, get_opts, set_opts, call_dl,
    compute_schema_on;
  simpl.

(** *** The dispatcher *)

Section Dispatcher.
Context {Schema : Type} (E : Collaborators Schema).

(** A bound handler is called, and what it returns is normalised; the
    state is the one the handler leaves. *)
Lemma dispatch_bound (self : string -> option handler) (req : request)
      (kwargs : dict) (h : handler) (w : world) :
  self (lower (method req)) = Some h ->
  Resource.dispatch_request E self req kwargs w
  = mbind (h req kwargs) (fun resp => lift (Resource.to_response E resp)) w.
Proof.
  intros Hbound. unfold Resource.dispatch_request. now rewrite Hbound.
Qed.

(** A tuple of any length but two or three leaves the local [data]
    unbound, and the dispatcher raises on its last line. *)
Lemma to_response_other_length (t : list value) :
  length t <> 2%nat -> length t <> 3%nat ->
  Resource.to_response E (HTuple t) = Raise UnboundLocalError.
Proof.
  intros H2 H3.
  destruct t as [|a [|b [|c [|d t]]]]; simpl in *;
    try reflexivity; congruence.
Qed.

(** C7.  A request whose verb finds no handler on the resource makes
    [dispatch_request] fail its assertion: the result is the raised
    [AssertionError], not a response, and nothing has run.  The one
    exception is the verb HEAD, which is answered by the handler of GET
    when the resource has one. *)
Theorem dispatch_unbound_verb (self : string -> option handler)
        (req : request) (kwargs : dict) (w : world) :
  self (lower (method req)) = None ->
  (method req <> "HEAD" \/ self "get" = None ->
   Resource.dispatch_request E self req kwargs w = (Raise AssertionError, w))
  /\ (forall h : handler,
         method req = "HEAD" -> self "get" = Some h ->
         Resource.dispatch_request E self req kwargs w
         = mbind (h req kwargs)
                 (fun resp => lift (Resource.to_response E resp)) w).
Proof.
  intros Hnone. unfold Resource.dispatch_request. rewrite Hnone. split.
  - intros [Hverb | Hget].
    + apply String.eqb_neq in Hverb. now rewrite Hverb.
    + destruct (String.eqb (method req) "HEAD"); [now rewrite Hget | easy].
  - intros h Hverb Hget. rewrite Hverb. simpl. now rewrite Hget.
Qed.

(** C8.  The end of [dispatch_request] turns what a handler returned into
    one response of body, status and headers: a body alone gets the status
    200 and no headers, a pair of body and status gets no headers, and a
    triple is kept as it is.  The body is serialized with [json.dumps] in
    each case. *)
Theorem to_response_canonical :
  (forall v : value,
      Resource.to_response E (HValue v)
      = Ok (mkResponse (json_dumps E v) (VInt 200) (VDict [])))
  /\ (forall data status : value,
         Resource.to_response E (HTuple [data; status])
         = Ok (mkResponse (json_dumps E data) status (VDict [])))
  /\ (forall data status hdrs : value,
         Resource.to_response E (HTuple [data; status; hdrs])
         = Ok (mkResponse (json_dumps E data) status hdrs)).
Proof. repeat split. Qed.
End Dispatcher.

(** HEAD on a collection is answered by its GET handler, and PATCH, which
    a collection does not have, fails the assertion. *)
Lemma dispatch_unbound_verb_witness :
  Resource.dispatch_request Example.plain
    (ResourceList.getattr Example.plain Example.persons)
    (Example.request_of "PATCH" VNone) [] Example.start
  = (Raise AssertionError, Example.start)
  /\ Resource.dispatch_request Example.plain
       (ResourceList.getattr Example.plain Example.persons)
       (Example.request_of "HEAD" VNone) [] Example.start
     = mbind (ResourceList.get Example.plain Example.persons
                (Example.request_of "HEAD" VNone) [])
             (fun resp => lift (Resource.to_response Example.plain resp))
             Example.start.
Proof.
  split.
  - apply (dispatch_unbound_verb Example.plain
             (ResourceList.getattr Example.plain Example.persons)
             (Example.request_of "PATCH" VNone) [] Example.start).
    + reflexivity.
    + left. discriminate.
  - apply (dispatch_unbound_verb Example.plain
             (ResourceList.getattr Example.plain Example.persons)
             (Example.request_of "HEAD" VNone) [] Example.start).
    + reflexivity.
    + reflexivity.
    + reflexivity.
Defined.

(** *** The errors of [schema.load] *)

Section LoadErrors.
Context {Schema : Type} (E : Collaborators Schema).

Lemma stamped_carries (status title : string) (e e' : value) :
  stamped status title e e' -> carries status title e'.
Proof.
  intros [d [_ ->]]. unfold carries, py_getitem. split.
  - rewrite lookup_set_key_other by discriminate.
    now rewrite lookup_set_key_same.
  - now rewrite lookup_set_key_same.
Qed.

Lemma stamp_all_dicts (status title : string) (errs : list value) :
  Forall (fun e => is_dict e = true) errs ->
  exists errs' : list value,
    stamp_all status title errs = Ok errs'
    /\ Forall2 (stamped status title) errs errs'.
Proof.
  induction 1 as [|e rest He _ [rest' [Hrest HF]]].
  - exists []. split; [reflexivity | constructor].
  - destruct e as [| | | | |d]; try discriminate.
    exists (VDict (set_key "title" (VStr title)
                     (set_key "status" (VStr status) d)) :: rest').
    split.
    + simpl. now rewrite Hrest.
    + constructor; [now exists d | exact HF].
Qed.

(** The loop over [errors['errors']] keeps the errors in number and in
    order, and leaves each with the status and the title. *)
Lemma stamp_errors_list (status title : string) (messages : value)
      (errs : list value) :
  py_getitem messages "errors" = Ok (VList errs) ->
  Forall (fun e => is_dict e = true) errs ->
  exists (out : value) (errs' : list value),
    stamp_errors status title messages = Ok out
    /\ py_getitem out "errors" = Ok (VList errs')
    /\ Forall2 (stamped status title) errs errs'
    /\ Forall (carries status title) errs'.
Proof.
  intros Hget Hdicts.
  destruct (stamp_all_dicts status title errs Hdicts) as [errs' [Hall HF]].
  destruct messages as [| | | | |m]; try discriminate.
  exists (VDict (set_key "errors" (VList errs') m)), errs'.
  split; [|split; [|split]].
  - unfold stamp_errors. rewrite Hget. simpl. now rewrite Hall.
  - simpl. now rewrite lookup_set_key_same.
  - exact HF.
  - clear Hall Hdicts Hget.
    induction HF as [|e e' rest rest' He _ IH]; constructor;
      [exact (stamped_carries _ _ _ _ He) | exact IH].
Qed.

Lemma load_incorrect_type (schema : Schema) (doc messages : value)
      (errs : list value) :
  schema_load E schema doc = Raise (IncorrectTypeError messages) ->
  py_getitem messages "errors" = Ok (VList errs) ->
  Forall (fun e => is_dict e = true) errs ->
  exists (out : value) (errs' : list value),
    load E schema doc = Ok (inl (HTuple [out; VInt 409]))
    /\ py_getitem out "errors" = Ok (VList errs')
    /\ Forall2 (stamped "409" "Incorrect type") errs errs'
    /\ Forall (carries "409" "Incorrect type") errs'.
Proof.
  intros Hload Hget Hdicts.
  destruct (stamp_errors_list "409" "Incorrect type" messages errs
              Hget Hdicts) as [out [errs' [Hout Hrest]]].
  exists out, errs'. split; [|exact Hrest].
  unfold load. rewrite Hload. now rewrite Hout.
Qed.

Lemma load_fails_validation (schema : Schema) (doc messages : value)
      (errs : list value) :
  fails_validation E schema doc messages ->
  py_getitem messages "errors" = Ok (VList errs) ->
  Forall (fun e => is_dict e = true) errs ->
  exists (out : value) (errs' : list value),
    load E schema doc = Ok (inl (HTuple [out; VInt 422]))
    /\ py_getitem out "errors" = Ok (VList errs')
    /\ Forall2 (stamped "422" "Validation error") errs errs'
    /\ Forall (carries "422" "Validation error") errs'.
Proof.
  intros Hfail Hget Hdicts.
  destruct (stamp_errors_list "422" "Validation error" messages errs
              Hget Hdicts) as [out [errs' [Hout Hrest]]].
  exists out, errs'. split; [|exact Hrest].
  unfold load.
  destruct Hfail as [Hraise | [data [Hret Htruthy]]].
  - rewrite Hraise. now rewrite Hout.
  - rewrite Hret, Htruthy. now rewrite Hout.
Qed.

Lemma load_passes_validation (schema : Schema) (doc data : value) :
  passes_validation E schema doc data ->
  load E schema doc = Ok (inr data).
Proof.
  intros [errors [Hload Hfalsy]]. unfold load. now rewrite Hload, Hfalsy.
Qed.

(** [ResourceDetail.patch] when the loading ends the request: the key
    [partial] is popped from the options, no call is made. *)
Lemma patch_load_error (req : request) (kwargs : dict)
      (w : world) (errors : handler_result) :
  load E (patch_schema E (w_opts w)) (get_json req) = Ok (inl errors) ->
  exists w' : world,
    w_calls w' = w_calls w
    /\ ResourceDetail.patch E req kwargs w = (Ok errors, w').
Proof.
  destruct w as [opts calls].
  unfold ResourceDetail.patch, patch_schema. run. intros Hload.
  destruct (schema_patch_kwargs opts) as [d|]; simpl in *;
    rewrite Hload; eexists; (split; [|reflexivity]); reflexivity.
Qed.

(** [ResourceDetail.patch] when the document loads and the comparison of
    the identifiers raises [BadRequest]. *)
Lemma patch_check_id_error (req : request) (kwargs : dict)
      (w : world) (data : value) (e : JsonApiException) :
  load E (patch_schema E (w_opts w)) (get_json req) = Ok (inr data) ->
  ResourceDetail.check_id E (get_json req) kwargs = Raise (JsonApi e) ->
  exc_cls e = BadRequest ->
  exists w' : world,
    w_calls w' = w_calls w
    /\ ResourceDetail.patch E req kwargs w
       = (Ok (error_response E e), w').
Proof.
  destruct w as [opts calls].
  unfold ResourceDetail.patch, patch_schema. run. intros Hload Hcheck Hcls.
  destruct (schema_patch_kwargs opts) as [d|]; simpl in *;
    rewrite Hload, Hcheck, Hcls; simpl; eexists; (split; [|reflexivity]);
    reflexivity.
Qed.
End LoadErrors.

(** *** Creating and updating a resource *)

Section CreateUpdate.
Context {Schema : Type} (E : Collaborators Schema).

(** C4.  When [schema.load] rejects the document of a collection POST
    for its type, by raising [IncorrectTypeError] with one error object
    per mismatch under ['errors'], the handler returns the pair of these
    messages and 409: the list under ['errors'] has the same length and
    order, and each error object in it is the one reported with the
    status "409" and the title "Incorrect type" set.  The state is the
    one before the request, so [create_object] has not been called. *)
Theorem post_incorrect_type (req : request) (kwargs : dict) (w : world)
        (messages : value) (errs : list value) :
  schema_load E (post_schema E (w_opts w)) (get_json req)
  = Raise (IncorrectTypeError messages) ->
  py_getitem messages "errors" = Ok (VList errs) ->
  Forall (fun e => is_dict e = true) errs ->
  exists (out : value) (errs' : list value),
    ResourceList.post E req kwargs w = (Ok (HTuple [out; VInt 409]), w)
    /\ py_getitem out "errors" = Ok (VList errs')
    /\ length errs' = length errs
    /\ Forall2 (stamped "409" "Incorrect type") errs errs'
    /\ Forall (carries "409" "Incorrect type") errs'.
Proof.
  intros Hload Hget Hdicts.
  destruct (load_incorrect_type E _ _ _ _ Hload Hget Hdicts)
    as [out [errs' [Hout [Hlist [HF2 HF]]]]].
  exists out, errs'. repeat split; try assumption.
  - unfold ResourceList.post. run. fold (post_schema E (w_opts w)).
    now rewrite Hout.
  - symmetry. exact (Forall2_length HF2).
Qed.

(** C5.  When [schema.load] reports field errors for the document of a
    collection POST or of a single-resource PATCH, one error object per
    failing field under ['errors'], the handler returns one pair of these
    messages and 422: the list under ['errors'] has the same length and
    order, and each error object in it is the one reported with the
    status "422" and the title "Validation error" set.  No call of the
    data layer is made. *)
Theorem validation_errors_one_envelope (req : request) (kwargs : dict)
        (w : world) (messages : value) (errs : list value) :
  py_getitem messages "errors" = Ok (VList errs) ->
  Forall (fun e => is_dict e = true) errs ->
  (fails_validation E (post_schema E (w_opts w)) (get_json req) messages ->
   exists (out : value) (errs' : list value),
     ResourceList.post E req kwargs w = (Ok (HTuple [out; VInt 422]), w)
     /\ py_getitem out "errors" = Ok (VList errs')
     /\ length errs' = length errs
     /\ Forall2 (stamped "422" "Validation error") errs errs'
     /\ Forall (carries "422" "Validation error") errs')
  /\ (fails_validation E (patch_schema E (w_opts w)) (get_json req) messages ->
      exists (out : value) (errs' : list value) (w' : world),
        ResourceDetail.patch E req kwargs w
        = (Ok (HTuple [out; VInt 422]), w')
        /\ w_calls w' = w_calls w
        /\ py_getitem out "errors" = Ok (VList errs')
        /\ length errs' = length errs
        /\ Forall2 (stamped "422" "Validation error") errs errs'
        /\ Forall (carries "422" "Validation error") errs').
Proof.
  intros Hget Hdicts. split; intros Hfail.
  - destruct (load_fails_validation E _ _ _ _ Hfail Hget Hdicts)
      as [out [errs' [Hout [Hlist [HF2 HF]]]]].
    exists out, errs'. repeat split; try assumption.
    + unfold ResourceList.post. run. fold (post_schema E (w_opts w)).
      now rewrite Hout.
    + symmetry. exact (Forall2_length HF2).
  - destruct (load_fails_validation E _ _ _ _ Hfail Hget Hdicts)
      as [out [errs' [Hout [Hlist [HF2 HF]]]]].
    destruct (patch_load_error E req kwargs w _ Hout) as [w' [Hcalls Hrun]].
    exists out, errs', w'. repeat split; try assumption.
    symmetry. exact (Forall2_length HF2).
Qed.

(** C6.  For a single-resource PATCH whose document passes the schema:
    when the data node has no [id], the handler returns an error response
    at 400 for a [BadRequest] whose source is [/data/id]; when the [id]
    is there and differs from the identifier of the route, it returns one
    at 400 for a [BadRequest] with the same source and another detail.
    In both cases no call of the data layer is made: neither [get_object]
    nor [update_object]. *)
Theorem patch_id_checked (req : request) (kwargs : dict) (w : world)
        (data d : value) :
  passes_validation E (patch_schema E (w_opts w)) (get_json req) data ->
  py_getitem (get_json req) "data" = Ok d ->
  let missing := "Missing id in " ++ quoted "data" ++ " node" in
  let mismatch :=
    "Value of id does not match the resource identifier in url" in
  (py_in "id" d = Ok false ->
   exists w' : world,
     ResourceDetail.patch E req kwargs w
     = (Ok (HTuple [jsonapi_errors E
                      [to_dict E (mkExc BadRequest "/data/id" missing 400)];
                    VInt 400]), w')
     /\ w_calls w' = w_calls w)
  /\ (forall i route_id : value,
         py_in "id" d = Ok true ->
         py_getitem d "id" = Ok i ->
         lookup (url_field E) kwargs = Some route_id ->
         py_eq i route_id = false ->
         exists w' : world,
           ResourceDetail.patch E req kwargs w
           = (Ok (HTuple [jsonapi_errors E
                            [to_dict E
                               (mkExc BadRequest "/data/id" mismatch 400)];
                          VInt 400]), w')
           /\ w_calls w' = w_calls w)
  /\ missing <> mismatch.
Proof.
  intros Hpass Hdata missing mismatch.
  apply load_passes_validation in Hpass.
  split; [|split].
  - intros Hin.
    destruct (patch_check_id_error E req kwargs w data
                (mkExc BadRequest "/data/id" missing 400) Hpass)
      as [w' [Hcalls Hrun]].
    + unfold ResourceDetail.check_id. rewrite Hdata. simpl.
      now rewrite Hin.
    + reflexivity.
    + exists w'. split; assumption.
  - intros i route_id Hin Hid Hroute Hneq.
    destruct (patch_check_id_error E req kwargs w data
                (mkExc BadRequest "/data/id" mismatch 400) Hpass)
      as [w' [Hcalls Hrun]].
    + unfold ResourceDetail.check_id. rewrite Hdata. simpl.
      rewrite Hin. simpl. rewrite Hid. simpl. rewrite Hroute. simpl.
      now rewrite Hneq.
    + reflexivity.
    + exists w'. split; assumption.
  - discriminate.
Qed.
End CreateUpdate.

Lemma post_incorrect_type_witness :
  exists (out : value) (errs' : list value),
    ResourceList.post Example.wrong_type
      (Example.request_of "POST" (Example.document (Example.linkage "cat" "1")))
      [] Example.start
    = (Ok (HTuple [out; VInt 409]), Example.start)
    /\ py_getitem out "errors" = Ok (VList errs')
    /\ length errs' = length Example.reported
    /\ Forall2 (stamped "409" "Incorrect type") Example.reported errs'
    /\ Forall (carries "409" "Incorrect type") errs'.
Proof.
  apply (post_incorrect_type Example.wrong_type
           (Example.request_of "POST"
              (Example.document (Example.linkage "cat" "1")))
           [] Example.start Example.messages Example.reported).
  - reflexivity.
  - reflexivity.
  - repeat constructor.
Defined.

Lemma validation_errors_one_envelope_witness :
  (exists (out : value) (errs' : list value),
      ResourceList.post Example.invalid_raised
        (Example.request_of "POST" (Example.document VNone)) []
        Example.start
      = (Ok (HTuple [out; VInt 422]), Example.start)
      /\ py_getitem out "errors" = Ok (VList errs')
      /\ length errs' = length Example.reported
      /\ Forall2 (stamped "422" "Validation error") Example.reported errs'
      /\ Forall (carries "422" "Validation error") errs')
  /\ (exists (out : value) (errs' : list value) (w' : world),
         ResourceDetail.patch Example.invalid_returned
           (Example.request_of "PATCH" (Example.document VNone)) []
           Example.start
         = (Ok (HTuple [out; VInt 422]), w')
         /\ w_calls w' = w_calls Example.start
         /\ py_getitem out "errors" = Ok (VList errs')
         /\ length errs' = length Example.reported
         /\ Forall2 (stamped "422" "Validation error") Example.reported errs'
         /\ Forall (carries "422" "Validation error") errs').
Proof.
  split.
  - apply (validation_errors_one_envelope Example.invalid_raised
             (Example.request_of "POST" (Example.document VNone)) []
             Example.start Example.messages Example.reported).
    + reflexivity.
    + repeat constructor.
    + left. reflexivity.
  - apply (validation_errors_one_envelope Example.invalid_returned
             (Example.request_of "PATCH" (Example.document VNone)) []
             Example.start Example.messages Example.reported).
    + reflexivity.
    + repeat constructor.
    + right. exists VNone. split; reflexivity.
Defined.

Lemma patch_id_checked_witness :
  (exists w' : world,
      ResourceDetail.patch Example.plain
        (Example.request_of "PATCH"
           (Example.document (VDict [("type", VStr "person")])))
        [("id", VStr "7")] Example.start
      = (Ok (HTuple
               [Example.envelope
                  [Example.error_object
                     (mkExc BadRequest "/data/id"
                        ("Missing id in " ++ quoted "data" ++ " node") 400)];
                VInt 400]), w')
      /\ w_calls w' = w_calls Example.start)
  /\ (exists w' : world,
         ResourceDetail.patch Example.plain
           (Example.request_of "PATCH"
              (Example.document (Example.linkage "person" "8")))
           [("id", VStr "7")] Example.start
         = (Ok (HTuple
                  [Example.envelope
                     [Example.error_object
                        (mkExc BadRequest "/data/id"
                           "Value of id does not match the resource identifier in url"
                           400)];
                   VInt 400]), w')
         /\ w_calls w' = w_calls Example.start).
Proof.
  split.
  - apply (patch_id_checked Example.plain
             (Example.request_of "PATCH"
                (Example.document (VDict [("type", VStr "person")])))
             [("id", VStr "7")] Example.start
             (Example.document (VDict [("type", VStr "person")]))
             (VDict [("type", VStr "person")])).
    + exists (VDict []). split; reflexivity.
    + reflexivity.
    + reflexivity.
  - apply (patch_id_checked Example.plain
             (Example.request_of "PATCH"
                (Example.document (Example.linkage "person" "8")))
             [("id", VStr "7")] Example.start
             (Example.document (Example.linkage "person" "8"))
             (Example.linkage "person" "8"))
      with (i := VStr "8") (route_id := VStr "7").
    + exists (VDict []). split; reflexivity.
    + reflexivity.
    + reflexivity.
    + reflexivity.
    + reflexivity.
    + reflexivity.
Defined.

(** *** Relationship documents *)

Section RelationshipDocuments.
Context {Schema : Type} (E : Collaborators Schema).

Lemma for_each_after {A} (body : A -> outcome unit) (pre : list A) (o : A)
      (rest : list A) :
  Forall (fun x => body x = Ok tt) pre ->
  for_each body (pre ++ o :: rest)
  = obind (body o) (fun _ => for_each body rest).
Proof.
  induction 1 as [|x pre Hx _ IH]; simpl.
  - reflexivity.
  - now rewrite Hx.
Qed.


Lemma py_getitem_present (doc v : value) (k : string) :
  py_getitem doc k = Ok v ->
  py_in k doc = Ok true /\ py_get doc k = Ok v.
Proof.
  destruct doc as [| | | | |d]; try discriminate. simpl.
  destruct (lookup k d); [|discriminate]. intros [= ->]. now split.
Qed.



Lemma check_item_other_type (t' : value) (detail : string) (o t : value) :
  py_in "type" o = Ok true -> py_in "id" o = Ok true ->
  py_getitem o "type" = Ok t -> py_eq t t' = false ->
  check_item E (Ok t') detail o = Raise (InvalidType_ E "/data/type" detail).
Proof.
  intros Ht Hi Hg Hne. unfold check_item. rewrite Ht, Hi, Hg. simpl.
  now rewrite Hne.
Qed.


Lemma check_list_document_items (type_ : string) (doc : value)
      (items : list value) :
  py_getitem doc "data" = Ok (VList items) ->
  check_list_document E type_ doc
  = for_each (check_item E (Ok (VStr type_))
                "The type provided does not match the resource type") items.
Proof.
  intros Hdata. destruct (py_getitem_present _ _ _ Hdata) as [Hin Hget].
  unfold check_list_document. now rewrite Hin, Hget, Hdata.
Qed.

(** What [post] and [delete] do when the [try] block raises one of the two
    exceptions it catches: the error response, in the state of before. *)
Lemma list_mutators_caught (self : View) (req : request) (kwargs : dict)
      (w : world) (h : handler) (e : JsonApiException) :
  In h [Relationship.post E self; Relationship.delete E self] ->
  check_list_document E (schema_type_ self) (get_json req)
  = Raise (JsonApi e) ->
  exc_cls e = BadRequest \/ exc_cls e = InvalidType ->
  h req kwargs w = (Ok (error_response E e), w).
Proof.
  intros Hh Hcheck Hcls.
  assert (Hcaught : existsb (exc_class_eqb (exc_cls e))
                            [BadRequest; InvalidType] = true)
    by (destruct Hcls as [-> | ->]; reflexivity).
  destruct Hh as [<- | [<- | []]];
    unfold Relationship.post, Relationship.delete; run;
    simpl in Hcaught; rewrite Hcheck, Hcaught; reflexivity.
Qed.

(** What they do when it raises anything: no call, no success. *)
Lemma list_mutators_stopped (self : View) (req : request) (kwargs : dict)
      (w : world) (h : handler) :
  In h [Relationship.post E self; Relationship.delete E self] ->
  check_list_document E (schema_type_ self) (get_json req) <> Ok tt ->
  snd (h req kwargs w) = w
  /\ ((exists e : JsonApiException,
          fst (h req kwargs w) = Ok (error_response E e))
      \/ (exists x : exn, fst (h req kwargs w) = Raise x)).
Proof.
  intros Hh Hcheck.
  destruct Hh as [<- | [<- | []]];
    unfold Relationship.post, Relationship.delete; run;
    (destruct (check_list_document E (schema_type_ self) (get_json req))
       as [[]|x]; [congruence|]);
    (destruct x as [| | | | |e| |]; simpl; try (split; [|right]; eauto; fail));
    (destruct (exc_cls e); simpl; split; eauto).
Qed.
End RelationshipDocuments.

Section RelationshipMutators.
Context {Schema : Type} (E : Collaborators Schema).


(** An item with [type] and [id] whose type is not the one of the schema
    sends [post] and [delete] through [InvalidType], when no item before it
    fails a check. *)
Lemma list_mutators_other_type (self : View) (req : request) (kwargs : dict)
      (w : world) (h : handler) (pre : list value) (o : value)
      (rest : list value) (t : value) :
  In h [Relationship.post E self; Relationship.delete E self] ->
  let wrong_type := "The type provided does not match the resource type" in
  py_getitem (get_json req) "data" = Ok (VList (pre ++ o :: rest)) ->
  Forall (fun x => check_item E (Ok (VStr (schema_type_ self)))
                     wrong_type x = Ok tt) pre ->
  py_in "type" o = Ok true -> py_in "id" o = Ok true ->
  py_getitem o "type" = Ok t -> py_eq t (VStr (schema_type_ self)) = false ->
  h req kwargs w
  = (Ok (error_response E
           (mkExc InvalidType "/data/type" wrong_type (InvalidType_status E))),
     w).
Proof.
  intros Hh wrong_type Hdata Hpre Htype Hid Hget Hne.
  apply (list_mutators_caught E self _ _ _ _
           (mkExc InvalidType "/data/type" wrong_type (InvalidType_status E))
           Hh); [|now right].
  rewrite (check_list_document_items E _ _ _ Hdata).
  rewrite (for_each_after _ _ _ _ Hpre).
  now rewrite (check_item_other_type E _ _ _ _ Htype Hid Hget Hne).
Qed.

(** So does the single object of a [patch]. *)
Lemma patch_object_other_type (self : View) (req : request) (kwargs : dict)
      (w : world) (o t : value) :
  py_getitem (get_json req) "data" = Ok o -> is_dict o = true ->
  py_in "type" o = Ok true -> py_in "id" o = Ok true ->
  py_getitem o "type" = Ok t -> py_eq t (VStr (schema_type_ self)) = false ->
  Relationship.patch E self req kwargs w
  = (Ok (error_response E
           (mkExc InvalidType "/data/type"
              "The type field does not match the resource type"
              (InvalidType_status E))),
     w).
Proof.
  intros Hdata Hdict Htype Hid Hget Hne.
  destruct (py_getitem_present _ _ _ Hdata) as [Hin _].
  unfold Relationship.patch, Relationship.check_document. run.
  rewrite Hin, Hdata. simpl. rewrite Hdict, Htype. simpl.
  rewrite Hid. simpl. rewrite Hget. simpl. now rewrite Hne.
Qed.

(** The list of a [patch] is compared with [self.type_] instead: on a
    resource without that attribute the first item that has [type] and
    [id] raises [AttributeError], whatever its type. *)
Lemma patch_list_without_attribute (self : View) (req : request)
      (kwargs : dict) (w : world) (o : value) (rest : list value) (t : value) :
  type_ self = None ->
  py_getitem (get_json req) "data" = Ok (VList (o :: rest)) ->
  py_in "type" o = Ok true -> py_in "id" o = Ok true ->
  py_getitem o "type" = Ok t ->
  Relationship.patch E self req kwargs w = (Raise AttributeError, w).
Proof.
  intros Hattr Hdata Htype Hid Hget.
  destruct (py_getitem_present _ _ _ Hdata) as [Hin _].
  unfold Relationship.patch, Relationship.check_document. run.
  rewrite Hin, Hdata. simpl. unfold check_item, Relationship.self_type_.
  rewrite Htype, Hid, Hget, Hattr. reflexivity.
Qed.

(** C10.  For the PATCH of a relationship, a body whose [data] is there
    and is neither a dict nor a list passes the [try] block, and the
    handler goes on to [update_relation] with the document as it came: the
    call is the one logged, and when it returns the response is the empty
    body. *)
Theorem patch_scalar_data_forwarded (self : View) (req : request)
        (kwargs : dict) (w : world) (d : value) :
  py_getitem (get_json req) "data" = Ok d ->
  is_dict d = false -> is_list d = false ->
  let doc := get_json req in
  let field := related_id_field_of (w_opts w) in
  Relationship.check_document E self (schema_type_ self) doc = Ok tt
  /\ Relationship.patch E self req kwargs w
     = Relationship.forward E [RelationNotFound; ObjectNotFound]
         (update_relation_call doc field kwargs)
         (update_relation E doc field kwargs) w
  /\ w_calls (snd (Relationship.patch E self req kwargs w))
     = (w_calls w ++ [update_relation_call doc field kwargs])%list
  /\ (update_relation E doc field kwargs (w_calls w) = Ok tt ->
      fst (Relationship.patch E self req kwargs w)
      = Ok (HValue (VStr EmptyString))).
Proof.
  intros Hdata Hdict Hlist doc field. subst doc field.
  destruct (py_getitem_present _ _ _ Hdata) as [Hin _].
  assert (Hcheck : Relationship.check_document E self (schema_type_ self)
                     (get_json req) = Ok tt).
  { unfold Relationship.check_document.
    rewrite Hin, Hdata. simpl. rewrite Hdict. simpl. now rewrite Hlist. }
  assert (Hrun : Relationship.patch E self req kwargs w
                 = Relationship.forward E [RelationNotFound; ObjectNotFound]
                     (update_relation_call (get_json req)
                        (related_id_field_of (w_opts w)) kwargs)
                     (update_relation E (get_json req)
                        (related_id_field_of (w_opts w)) kwargs) w).
  { unfold Relationship.patch. run. now rewrite Hcheck. }
  split; [exact Hcheck|]. split; [exact Hrun|].
  rewrite Hrun. unfold Relationship.forward. run. split.
  - destruct (update_relation E _ _ _ _) as [[]|x]; [reflexivity|].
    destruct x as [| | | | |e| |]; try reflexivity.
    destruct (exc_cls e); reflexivity.
  - intros Hok. now rewrite Hok.
Qed.
End RelationshipMutators.



Lemma patch_scalar_data_forwarded_witness :
  Relationship.patch Example.plain Example.persons
    (Example.request_of "PATCH" (Example.document (VStr "person")))
    [] Example.start
  = (Ok (HValue (VStr EmptyString)),
     mkWorld Example.no_meta
       [update_relation_call (Example.document (VStr "person")) "id" []]).
Proof.
  destruct (patch_scalar_data_forwarded Example.plain Example.persons
              (Example.request_of "PATCH" (Example.document (VStr "person")))
              [] Example.start (VStr "person")
              eq_refl eq_refl eq_refl)
    as [_ [Hrun _]].
  rewrite Hrun. reflexivity.
Defined.

(** *** Where the handlers depart from the specification *)

(** C1.  The list of a relationship PATCH is not compared with the type of
    the schema.  For the document whose data is the one item of type
    [computer], on a resource of persons: POST answers with the error
    response of [InvalidType] at [/data/type], and so does PATCH for the
    item alone; PATCH for the list raises [AttributeError] when the
    resource has no attribute [type_], and when it has one that says
    [computer] it accepts the item and calls [update_relation]. *)
Theorem patch_list_not_compared_with_schema_type :
  let item := Example.linkage "computer" "1" in
  let in_list := Example.document (VList [item]) in
  let alone := Example.document item in
  let invalid_type (detail : string) :=
    Ok (error_response Example.plain
          (mkExc InvalidType "/data/type" detail 409)) in
  Relationship.post Example.plain Example.persons
    (Example.request_of "POST" in_list) [] Example.start
  = (invalid_type "The type provided does not match the resource type",
     Example.start)
  /\ Relationship.patch Example.plain Example.persons
       (Example.request_of "PATCH" alone) [] Example.start
     = (invalid_type "The type field does not match the resource type",
        Example.start)
  /\ Relationship.patch Example.plain Example.persons
       (Example.request_of "PATCH" in_list) [] Example.start
     = (Raise AttributeError, Example.start)
  /\ Relationship.patch Example.plain (Example.persons_typed "computer")
       (Example.request_of "PATCH" in_list) [] Example.start
     = (Ok (HValue (VStr EmptyString)),
        mkWorld Example.no_meta [update_relation_call in_list "id" []]).
Proof. repeat split. Qed.

(** C2.  A GET on a relationship writes into the options of its class.
    With [endpoint_kwargs] configured as the path [computer.id] under the
    key [id], the first request answers, and leaves the resolved value 3
    under the key in place of the path; the next request on the same class
    finds no path to split and raises [AttributeError]. *)
Theorem relationship_get_overwrites_endpoint_kwargs :
  let w0 := mkWorld Example.templated [] in
  let req := Example.request_of "GET" VNone in
  let first := Relationship.get Example.plain Example.persons req [] w0 in
  endpoint_kwargs (w_opts w0) = Some [("id", OVal (VStr "computer.id"))]
  /\ fst first
     = Ok (HValue (VDict [("links",
                           VDict [("self", VStr "person_computers");
                                  ("related", VStr "computer_list")]);
                          ("data", VNone)]))
  /\ endpoint_kwargs (w_opts (snd first)) = Some [("id", OVal (VInt 3))]
  /\ w_opts (snd first) <> w_opts w0
  /\ fst (Relationship.get Example.plain Example.persons req [] (snd first))
     = Raise AttributeError.
Proof. repeat split. discriminate. Qed.

Section Options.
Context {Schema : Type} (E : Collaborators Schema).

(** A GET on a collection adds [many] to the configured
    [schema_get_kwargs], and leaves there what [compute_schema] makes of
    the dict. *)
Lemma list_get_updates_schema_get_kwargs (self : View) (req : request)
      (kwargs : dict) (w : world) (d : dict) (counted : Z * obj) :
  get_collection E (mkQS (args req)) kwargs (w_calls w) = Ok counted ->
  schema_get_kwargs (w_opts w) = Some d ->
  schema_get_kwargs (w_opts (snd (ResourceList.get E self req kwargs w)))
  = Some (snd (compute_schema E (update d [("many", VBool true)])
                 (mkQS (args req)) None)).
Proof.
  intros Hfetch Hkw. unfold ResourceList.get. run. rewrite Hfetch, Hkw. simpl.
  destruct (compute_schema E _ _ _) as [[schema|x] left]; simpl;
    [reflexivity|].
  destruct x as [| | | | |e| |]; try reflexivity.
  destruct (exc_cls e); reflexivity.
Qed.

(** A PATCH on a single resource pops [partial] from the configured
    [schema_patch_kwargs]. *)
Lemma patch_pops_partial (req : request) (kwargs : dict) (w : world)
      (d : dict) :
  schema_patch_kwargs (w_opts w) = Some d ->
  schema_patch_kwargs (w_opts (snd (ResourceDetail.patch E req kwargs w)))
  = Some (del_key "partial" d).
Proof.
  intros Hkw. unfold ResourceDetail.patch. run. rewrite Hkw. simpl.
  destruct (load E _ _) as [[errors|data]|x]; try reflexivity.
  destruct (ResourceDetail.check_id E _ _) as [[]|x].
  - destruct (get_object E _ _) as [o|x]; simpl.
    + destruct (update_object E _ _ _ _); reflexivity.
    + destruct x as [| | | | |e| |]; try reflexivity.
      destruct (exc_cls e); reflexivity.
  - destruct x as [| | | | |e| |]; try reflexivity.
    destruct (exc_cls e); reflexivity.
Qed.

(** C9, as the code has it.  A GET on a collection calls [get_collection]
    first, whatever the selection of fields: the call is the one the
    request adds to the log, whether the handler answers or not.  When the
    fetch returns and [compute_schema] rejects the selected fields by
    raising an [InvalidField] whose status is of the 400 class, the handler
    returns the error response at that status; when the fetch raises, its
    exception leaves the handler and the selection is not looked at. *)
Theorem list_get_invalid_field_after_fetch (self : View) (req : request)
        (kwargs : dict) (w : world) (e : JsonApiException) :
  let qs := mkQS (args req) in
  let schema_kwargs :=
    update (match schema_get_kwargs (w_opts w) with
            | Some d => d
            | None => []
            end) [("many", VBool true)] in
  let answer := ResourceList.get E self req kwargs w in
  fst (compute_schema E schema_kwargs qs None) = Raise (JsonApi e) ->
  exc_cls e = InvalidField ->
  400 <= exc_status e < 500 ->
  w_calls (snd answer) = (w_calls w ++ [get_collection_call qs kwargs])%list
  /\ (forall counted : Z * obj,
         get_collection E qs kwargs (w_calls w) = Ok counted ->
         exists status : Z,
           fst answer
           = Ok (HTuple [jsonapi_errors E [to_dict E e]; VInt status])
           /\ status = exc_status e
           /\ 400 <= status < 500)
  /\ (forall x : exn,
         get_collection E qs kwargs (w_calls w) = Raise x ->
         fst answer = Raise x).
Proof.
  intros qs schema_kwargs answer Hschema Hcls Hclass.
  subst qs schema_kwargs answer.
  unfold ResourceList.get. run.
  destruct (get_collection E _ _ _) as [counted|x]; simpl.
  - destruct (schema_get_kwargs (w_opts w)) as [d|]; simpl in *;
      rewrite Hschema, Hcls; simpl;
      (split; [reflexivity|]);
      (split; [|discriminate]);
      intros c _; exists (exc_status e); repeat split; lia.
  - split; [reflexivity|]. split; [discriminate|].
    now intros y [= <-].
Qed.
End Options.

Lemma list_get_invalid_field_after_fetch_witness :
  let answer :=
    ResourceList.get Example.unselectable Example.persons
      (Example.request_of "GET" VNone) [] Example.start in
  w_calls (snd answer) = [get_collection_call (mkQS (VDict [])) []]
  /\ exists status : Z,
      fst answer
      = Ok (HTuple
              [Example.envelope [Example.error_object Example.invalid_field];
               VInt status])
      /\ status = 400
      /\ 400 <= status < 500.
Proof.
  destruct (list_get_invalid_field_after_fetch Example.unselectable
              Example.persons (Example.request_of "GET" VNone) []
              Example.start Example.invalid_field)
    as [Hcalls [Hanswer _]].
  - reflexivity.
  - reflexivity.
  - simpl. lia.
  - split; [exact Hcalls|].
    exact (Hanswer (0, OVal (VList [])) eq_refl).
Defined.

(** The abort does not come before the fetch: the schema rejects the
    fields, the handler answers with the error response, and the log of the
    data layer is not the one of before the request, the collection has
    been fetched. *)
Lemma list_get_abort_before_fetch_counterexample :
  let run :=
    ResourceList.get Example.unselectable Example.persons
      (Example.request_of "GET" VNone) [] Example.start in
  fst run = Ok (error_response Example.unselectable Example.invalid_field)
  /\ w_calls (snd run) = [get_collection_call (mkQS (VDict [])) []]
  /\ w_calls (snd run) <> w_calls Example.start.
Proof. repeat split. discriminate. Qed.

(** *** The handlers on example requests *)

(** PUT is bound on no endpoint kind. *)
Example put_is_unimplemented :
  let req := Example.request_of "PUT" VNone in
  Resource.dispatch_request Example.plain
    (ResourceList.getattr Example.plain Example.persons) req []
    Example.start
  = (Raise AssertionError, Example.start)
  /\ Resource.dispatch_request Example.plain
       (ResourceDetail.getattr Example.plain) req [] Example.start
     = (Raise AssertionError, Example.start)
  /\ Resource.dispatch_request Example.plain
       (Relationship.getattr Example.plain Example.persons) req []
       Example.start
     = (Raise AssertionError, Example.start).
Proof. repeat split. Qed.

(** A well-formed linkage is created, and answered with the empty body at
    200. *)
Example post_linkage :
  let doc := Example.document (VList [Example.linkage "person" "1"]) in
  Resource.dispatch_request Example.plain
    (Relationship.getattr Example.plain Example.persons)
    (Example.request_of "POST" doc) [("id", VStr "7")] Example.start
  = (Ok (mkResponse EmptyString (VInt 200) (VDict [])),
     mkWorld Example.no_meta
       [create_relation_call doc "id" [("id", VStr "7")]]).
Proof. reflexivity. Qed.

(** A resource is deleted after it has been fetched, and answered at 204. *)
Example delete_resource :
  Resource.dispatch_request Example.plain
    (ResourceDetail.getattr Example.plain)
    (Example.request_of "DELETE" VNone) [("id", VStr "7")] Example.start
  = (Ok (mkResponse EmptyString (VInt 204) (VDict [])),
     mkWorld Example.no_meta
       [get_object_call [("id", VStr "7")];
        delete_object_call Example.person [("id", VStr "7")]]).
Proof. reflexivity. Qed.

(** A PATCH whose [id] is the one of the route goes through to the data
    layer. *)
Example patch_resource :
  let doc := Example.document (Example.linkage "person" "7") in
  ResourceDetail.patch Example.plain (Example.request_of "PATCH" doc)
    [("id", VStr "7")] Example.start
  = (Ok (HValue (VDict [("data", VNone)])),
     mkWorld Example.no_meta
       [get_object_call [("id", VStr "7")];
        update_object_call Example.person doc [("id", VStr "7")]]).
Proof. reflexivity. Qed.

(** [split('.')] as Python has it. *)
Example split_dot_examples :
  split_dot "computer.id" = ["computer"; "id"]
  /\ split_dot "id" = ["id"]
  /\ split_dot "a..b" = ["a"; EmptyString; "b"]
  /\ split_dot EmptyString = [EmptyString].
Proof. repeat split. Qed.

(** ** Further properties of the code *)

(** *** More of the dispatcher *)

Section DispatcherMore.
Context {Schema : Type} (E : Collaborators Schema).

(** X1.  When the handler of the verb returns a tuple that has neither two
    nor three elements, [dispatch_request] raises on its last line, where
    the local [data] is unbound; the handler has run, and the state is the
    one it left. *)
Theorem dispatch_tuple_other_length (self : string -> option handler)
        (req : request) (kwargs : dict) (w w' : world) (h : handler)
        (t : list value) :
  self (lower (method req)) = Some h ->
  h req kwargs w = (Ok (HTuple t), w') ->
  length t <> 2%nat -> length t <> 3%nat ->
  Resource.dispatch_request E self req kwargs w = (Raise UnboundLocalError, w').
Proof.
  intros Hbound Hrun H2 H3.
  rewrite (dispatch_bound E self req kwargs h w Hbound).
  unfold mbind, lift. rewrite Hrun.
  now rewrite (to_response_other_length E t H2 H3).
Qed.

(** X2.  On each of the three endpoint kinds a HEAD request is answered as
    the GET request with the same arguments, route and body: the GET
    handler runs in full, with its calls of the data layer. *)
Theorem head_runs_get (self : View) (req : request) (kwargs : dict)
        (w : world) :
  method req = "HEAD" ->
  let as_get := mkRequest "GET" (args req) (view_args req) (get_json req) in
  Resource.dispatch_request E (ResourceList.getattr E self) req kwargs w
  = Resource.dispatch_request E (ResourceList.getattr E self) as_get kwargs w
  /\ Resource.dispatch_request E (ResourceDetail.getattr E) req kwargs w
     = Resource.dispatch_request E (ResourceDetail.getattr E) as_get kwargs w
  /\ Resource.dispatch_request E (Relationship.getattr E self) req kwargs w
     = Resource.dispatch_request E (Relationship.getattr E self) as_get
         kwargs w.
Proof.
  intros Hhead as_get. unfold Resource.dispatch_request.
  rewrite Hhead. repeat split.
Qed.
End DispatcherMore.

Lemma dispatch_tuple_other_length_witness :
  Resource.dispatch_request Example.plain
    (fun name => if String.eqb name "get" then Some Example.one_tuple
                 else None)
    (Example.request_of "GET" VNone) [] Example.start
  = (Raise UnboundLocalError, Example.start).
Proof.
  apply (dispatch_tuple_other_length Example.plain _
           (Example.request_of "GET" VNone) [] Example.start Example.start
           Example.one_tuple [VNone]).
  - reflexivity.
  - reflexivity.
  - discriminate.
  - discriminate.
Defined.

Lemma head_runs_get_witness :
  Resource.dispatch_request Example.plain
    (ResourceDetail.getattr Example.plain)
    (Example.request_of "HEAD" VNone) [("id", VStr "7")] Example.start
  = Resource.dispatch_request Example.plain
      (ResourceDetail.getattr Example.plain)
      (Example.request_of "GET" VNone) [("id", VStr "7")] Example.start.
Proof.
  apply (head_runs_get Example.plain Example.persons
           (Example.request_of "HEAD" VNone) [("id", VStr "7")]
           Example.start).
  reflexivity.
Defined.

(** *** More of the collection *)

Section AssocMore.
Context {A : Type}.

Lemma set_key_twice (k : string) (v : A) (d : list (string * A)) :
  set_key k v (set_key k v d) = set_key k v d.
Proof.
  induction d as [|[k' v'] rest IH]; simpl.
  - now rewrite String.eqb_refl.
  - destruct (String.eqb k' k) eqn:Hk; simpl.
    + now rewrite String.eqb_refl.
    + now rewrite Hk, IH.
Qed.

Lemma lookup_del_key_other (k k0 : string) (d : list (string * A)) :
  k0 <> k -> lookup k (del_key k0 d) = lookup k d.
Proof.
  intros Hne.
  induction d as [|[k' v'] rest IH]; simpl; [reflexivity|].
  destruct (String.eqb k' k0) eqn:Hk0; simpl.
  - apply String.eqb_eq in Hk0; subst k'.
    apply String.eqb_neq in Hne. now rewrite Hne.
  - destruct (String.eqb k' k); [reflexivity | exact IH].
Qed.

Lemma lookup_del_key_same (k : string) (d : list (string * A)) :
  NoDup (map fst d) -> lookup k (del_key k d) = None.
Proof.
  induction d as [|[k' v'] rest IH]; simpl; [reflexivity|].
  intros Hnd. inversion Hnd as [|? ? Hnotin Hrest]; subst.
  destruct (String.eqb k' k) eqn:Hk; simpl.
  - apply String.eqb_eq in Hk; subst k'.
    clear IH Hnd Hrest. induction rest as [|[k2 v2] rest IH]; simpl.
    + reflexivity.
    + simpl in Hnotin. destruct (String.eqb k2 k) eqn:Hk2.
      * apply String.eqb_eq in Hk2. subst k2. exfalso. apply Hnotin. now left.
      * apply IH. intros Hin. apply Hnotin. now right.
  - rewrite Hk. now apply IH.
Qed.
End AssocMore.

Section CollectionMore.
Context {Schema : Type} (E : Collaborators Schema).


(** X3.  A GET on a collection turns no exception into an error response
    but the [InvalidField] of [compute_schema].  Whatever [get_collection]
    raises leaves the handler as it is, [InvalidField] and the not-found
    exceptions too, and so does anything else [compute_schema] raises,
    [InvalidInclude] too.  In each case [get_collection] has been called,
    once. *)
Theorem list_get_converts_only_invalid_field (self : View) (req : request)
        (kwargs : dict) (w : world) (x : exn) :
  let qs := mkQS (args req) in
  let schema_kwargs :=
    update (match schema_get_kwargs (w_opts w) with
            | Some d => d
            | None => []
            end) [("many", VBool true)] in
  let answer := ResourceList.get E self req kwargs w in
  let fetched := (w_calls w ++ [get_collection_call qs kwargs])%list in
  (get_collection E qs kwargs (w_calls w) = Raise x ->
   fst answer = Raise x /\ w_calls (snd answer) = fetched)
  /\ (forall counted : Z * obj,
         get_collection E qs kwargs (w_calls w) = Ok counted ->
         fst (compute_schema E schema_kwargs qs None) = Raise x ->
         (forall e : JsonApiException,
             x = JsonApi e -> exc_cls e <> InvalidField) ->
         fst answer = Raise x /\ w_calls (snd answer) = fetched).
Proof.
  intros qs schema_kwargs answer fetched.
  subst qs schema_kwargs answer fetched.
  unfold ResourceList.get. run. split.
  - intros Hfetch. rewrite Hfetch. split; reflexivity.
  - intros counted Hfetch Hschema Hother. rewrite Hfetch. simpl.
    destruct (schema_get_kwargs (w_opts w)) as [d|]; simpl in *;
      rewrite Hschema;
      (destruct x as [| | | | |e| |]; try (split; reflexivity));
      specialize (Hother e eq_refl);
      (destruct (exc_cls e); try (split; reflexivity); congruence).
Qed.


(** X5.  Unless the options set [include_endpoint_kwargs] to [True]
    itself, a GET on a collection does not depend on the arguments of the
    view: the link of the pagination is built from the endpoint alone. *)
Theorem list_get_ignores_view_args (self : View) (req : request)
        (kwargs : dict) (w : world) (other : dict) :
  include_endpoint_kwargs (w_opts w) <> Some (VBool true) ->
  ResourceList.get E self
    (mkRequest (method req) (args req) other (get_json req)) kwargs w
  = ResourceList.get E self req kwargs w.
Proof.
  intros Hflag. unfold ResourceList.get. run.
  destruct (get_collection E _ _ _) as [counted|x]; [|reflexivity]. simpl.
  destruct (schema_get_kwargs (w_opts w)) as [d|]; simpl;
    (destruct (compute_schema E _ _ _) as [[schema|x] left]; simpl;
     [|destruct x as [| | | | |e| |]; try reflexivity;
       destruct (exc_cls e); reflexivity]);
    simpl;
    (destruct (include_endpoint_kwargs (w_opts w)) as [[|[|]| | | |]|];
     try reflexivity; congruence).
Qed.

Lemma load_data_passes (schema : Schema) (doc data : value) :
  load E schema doc = Ok (inr data) -> passes_validation E schema doc data.
Proof.
  unfold load, passes_validation.
  destruct (schema_load E schema doc) as [[data' errors]|x].
  - destruct (py_truthy errors) eqn:Htruthy.
    + destruct (stamp_errors _ _ errors); discriminate.
    + intros [= <-]. now exists errors.
  - destruct x as [| | | | | |m|m]; try discriminate;
      destruct (stamp_errors _ _ m); discriminate.
Qed.

(** X6.  Whatever the request, a POST on a collection leaves the options
    of the class as they are, and calls the data layer at most once: the
    one call there can be is [create_object], with the data of a document
    that passed the schema and with the route arguments. *)
Theorem post_calls_at_most_create (req : request) (kwargs : dict)
        (w : world) :
  let after := snd (ResourceList.post E req kwargs w) in
  w_opts after = w_opts w
  /\ (w_calls after = w_calls w
      \/ exists data : value,
        passes_validation E (post_schema E (w_opts w)) (get_json req) data
        /\ w_calls after
           = (w_calls w ++ [create_object_call data kwargs])%list).
Proof.
  unfold ResourceList.post. run. fold (post_schema E (w_opts w)).
  destruct (load E (post_schema E (w_opts w)) (get_json req))
    as [[errors|data]|x] eqn:Hload; simpl.
  - split; [reflexivity | now left].
  - apply load_data_passes in Hload.
    destruct (create_object E data kwargs (w_calls w)); simpl;
      (split; [reflexivity | right; now exists data]).
  - split; [reflexivity | now left].
Qed.

(** X7.  A POST on a collection whose document passes the schema calls
    [create_object] with the loaded data and answers with the dump of the
    created object at 201; what [create_object] raises is not caught. *)
Theorem post_created (req : request) (kwargs : dict) (w : world)
        (data : value) :
  passes_validation E (post_schema E (w_opts w)) (get_json req) data ->
  ResourceList.post E req kwargs w
  = (obind (create_object E data kwargs (w_calls w))
       (fun o =>
          Ok (HTuple [schema_dump E (post_schema E (w_opts w)) o; VInt 201])),
     mkWorld (w_opts w) (w_calls w ++ [create_object_call data kwargs])).
Proof.
  intros Hpass. apply load_passes_validation in Hpass.
  unfold ResourceList.post. run. fold (post_schema E (w_opts w)).
  rewrite Hpass. simpl.
  destruct (create_object E data kwargs (w_calls w)); reflexivity.
Qed.
End CollectionMore.

(** *** More of the errors of [schema.load] *)

Section LoadMore.
Context {Schema : Type} (E : Collaborators Schema).

Lemma stamped_keeps_other_keys (status title : string) (e e' : value) :
  stamped status title e e' -> keeps_other_keys e e'.
Proof.
  intros [d [-> ->]] k Hstatus Htitle. unfold py_getitem.
  rewrite lookup_set_key_other by congruence.
  now rewrite lookup_set_key_other by congruence.
Qed.

Lemma stamped_all_keep_other_keys (status title : string)
      (errs errs' : list value) :
  Forall2 (stamped status title) errs errs' ->
  Forall2 keeps_other_keys errs errs'.
Proof.
  induction 1 as [|e e' rest rest' He _ IH]; constructor;
    [exact (stamped_keeps_other_keys _ _ _ _ He) | exact IH].
Qed.

Lemma stamp_errors_shape (status title : string) (m : dict)
      (errs : list value) :
  py_getitem (VDict m) "errors" = Ok (VList errs) ->
  Forall (fun e => is_dict e = true) errs ->
  exists errs' : list value,
    stamp_errors status title (VDict m)
    = Ok (VDict (set_key "errors" (VList errs') m))
    /\ Forall2 (stamped status title) errs errs'.
Proof.
  intros Hget Hdicts.
  destruct (stamp_all_dicts status title errs Hdicts) as [errs' [Hall HF]].
  exists errs'. split; [|exact HF].
  unfold stamp_errors. rewrite Hget. simpl. now rewrite Hall.
Qed.

Lemma stamp_errors_no_key (status title : string) (m : dict) :
  lookup "errors" m = None ->
  stamp_errors status title (VDict m) = Raise KeyError.
Proof. intros Hnone. unfold stamp_errors. simpl. now rewrite Hnone. Qed.

Lemma load_refused_shape (schema : Schema) (doc : value) (m : dict)
      (status : Z) (errs : list value) :
  refused_with E schema doc (VDict m) status ->
  py_getitem (VDict m) "errors" = Ok (VList errs) ->
  Forall (fun e => is_dict e = true) errs ->
  exists errs' : list value,
    load E schema doc
    = Ok (inl (HTuple [VDict (set_key "errors" (VList errs') m);
                       VInt status]))
    /\ Forall2 keeps_other_keys errs errs'.
Proof.
  intros Hrefused Hget Hdicts. unfold load.
  destruct Hrefused as [[Hraise ->] | [[Hraise | [data [Hret Htruthy]]] ->]].
  - destruct (stamp_errors_shape "409" "Incorrect type" m errs Hget Hdicts)
      as [errs' [Hout HF]].
    exists errs'. rewrite Hraise, Hout. split; [reflexivity|].
    exact (stamped_all_keep_other_keys _ _ _ _ HF).
  - destruct (stamp_errors_shape "422" "Validation error" m errs Hget Hdicts)
      as [errs' [Hout HF]].
    exists errs'. rewrite Hraise, Hout. split; [reflexivity|].
    exact (stamped_all_keep_other_keys _ _ _ _ HF).
  - destruct (stamp_errors_shape "422" "Validation error" m errs Hget Hdicts)
      as [errs' [Hout HF]].
    exists errs'. rewrite Hret, Htruthy, Hout. split; [reflexivity|].
    exact (stamped_all_keep_other_keys _ _ _ _ HF).
Qed.

Lemma load_refused_no_key (schema : Schema) (doc : value) (m : dict)
      (status : Z) :
  refused_with E schema doc (VDict m) status ->
  lookup "errors" m = None ->
  load E schema doc = Raise KeyError.
Proof.
  intros Hrefused Hnone. unfold load.
  destruct Hrefused as [[Hraise _] | [[Hraise | [data [Hret Htruthy]]] _]].
  - now rewrite Hraise, stamp_errors_no_key.
  - now rewrite Hraise, stamp_errors_no_key.
  - now rewrite Hret, Htruthy, stamp_errors_no_key.
Qed.

Lemma patch_load_raises (req : request) (kwargs : dict) (w : world)
      (x : exn) :
  load E (patch_schema E (w_opts w)) (get_json req) = Raise x ->
  fst (ResourceDetail.patch E req kwargs w) = Raise x
  /\ w_calls (snd (ResourceDetail.patch E req kwargs w)) = w_calls w.
Proof.
  destruct w as [opts calls].
  unfold ResourceDetail.patch, patch_schema. run. intros Hload.
  destruct (schema_patch_kwargs opts) as [d|]; simpl in *;
    rewrite Hload; split; reflexivity.
Qed.

(** X8.  When [schema.load] refuses the document with messages that have
    no key [errors], as the plain messages of marshmallow are, keyed by
    field, the POST on a collection and the PATCH on a resource raise
    [KeyError] instead of answering 409 or 422; the data layer is not
    called. *)
Theorem messages_without_errors_key (req : request) (kwargs : dict)
        (w : world) (m : dict) (status : Z) :
  lookup "errors" m = None ->
  (refused_with E (post_schema E (w_opts w)) (get_json req) (VDict m)
     status ->
   ResourceList.post E req kwargs w = (Raise KeyError, w))
  /\ (refused_with E (patch_schema E (w_opts w)) (get_json req) (VDict m)
        status ->
      fst (ResourceDetail.patch E req kwargs w) = Raise KeyError
      /\ w_calls (snd (ResourceDetail.patch E req kwargs w)) = w_calls w).
Proof.
  intros Hnone. split; intros Hrefused.
  - unfold ResourceList.post. run. fold (post_schema E (w_opts w)).
    now rewrite (load_refused_no_key _ _ _ _ Hrefused Hnone).
  - apply patch_load_raises.
    exact (load_refused_no_key _ _ _ _ Hrefused Hnone).
Qed.

(** X9.  The error objects a POST on a collection returns at 409 or 422
    are the ones of [schema.load] in every key but [status] and [title]:
    the detail and the source of each are kept, and so is every key of the
    messages beside [errors]. *)
Theorem post_errors_keep_other_keys (req : request) (kwargs : dict)
        (w : world) (m : dict) (status : Z) (errs : list value) :
  refused_with E (post_schema E (w_opts w)) (get_json req) (VDict m)
    status ->
  py_getitem (VDict m) "errors" = Ok (VList errs) ->
  Forall (fun e => is_dict e = true) errs ->
  exists (out : value) (errs' : list value),
    ResourceList.post E req kwargs w = (Ok (HTuple [out; VInt status]), w)
    /\ py_getitem out "errors" = Ok (VList errs')
    /\ Forall2 keeps_other_keys errs errs'
    /\ forall k : string,
        k <> "errors" -> py_getitem out k = py_getitem (VDict m) k.
Proof.
  intros Hrefused Hget Hdicts.
  destruct (load_refused_shape _ _ _ _ _ Hrefused Hget Hdicts)
    as [errs' [Hload HF]].
  exists (VDict (set_key "errors" (VList errs') m)), errs'.
  split; [|split; [|split]].
  - unfold ResourceList.post. run. fold (post_schema E (w_opts w)).
    now rewrite Hload.
  - simpl. now rewrite lookup_set_key_same.
  - exact HF.
  - intros k Hk. simpl. rewrite lookup_set_key_other by congruence.
    reflexivity.
Qed.
End LoadMore.

(** *** More of the single resource *)

Section DetailMore.
Context {Schema : Type} (E : Collaborators Schema).

Lemma check_id_same (doc : value) (kwargs : dict) (d i route_id : value) :
  py_getitem doc "data" = Ok d -> py_getitem d "id" = Ok i ->
  lookup (url_field E) kwargs = Some route_id -> py_eq i route_id = true ->
  ResourceDetail.check_id E doc kwargs = Ok tt.
Proof.
  intros Hdata Hid Hroute Heq.
  destruct (py_getitem_present _ _ _ Hid) as [Hin _].
  unfold ResourceDetail.check_id. rewrite Hdata. simpl. rewrite Hin. simpl.
  rewrite Hid. simpl. rewrite Hroute. simpl. now rewrite Heq.
Qed.

(** [ResourceDetail.patch] once the document has loaded and the
    identifiers agree: what is left is the fetch and the update. *)
Lemma patch_checked (req : request) (kwargs : dict) (w : world)
      (data : value) :
  load E (patch_schema E (w_opts w)) (get_json req) = Ok (inr data) ->
  ResourceDetail.check_id E (get_json req) kwargs = Ok tt ->
  let fetched := (w_calls w ++ [get_object_call kwargs])%list in
  fst (ResourceDetail.patch E req kwargs w)
  = match get_object E kwargs (w_calls w) with
    | Ok o =>
        obind (update_object E o data kwargs fetched)
          (fun o' =>
             Ok (HValue (schema_dump E (patch_schema E (w_opts w)) o')))
    | Raise (JsonApi e) =>
        if exc_class_eqb (exc_cls e) ObjectNotFound
        then Ok (error_response E e)
        else Raise (JsonApi e)
    | Raise x => Raise x
    end
  /\ w_calls (snd (ResourceDetail.patch E req kwargs w))
     = match get_object E kwargs (w_calls w) with
       | Ok o => (fetched ++ [update_object_call o data kwargs])%list
       | Raise _ => fetched
       end.
Proof.
  destruct w as [opts calls].
  unfold ResourceDetail.patch, patch_schema. run. intros Hload Hcheck.
  destruct (schema_patch_kwargs opts) as [d|]; simpl in *;
    rewrite Hload, Hcheck; simpl;
    (destruct (get_object E kwargs calls) as [o|x]; simpl;
     [destruct (update_object E o data kwargs _); split; reflexivity|]);
    (destruct x as [| | | | |e| |]; try (split; reflexivity));
    (destruct (exc_cls e); split; reflexivity).
Qed.


(** X11.  When [get_object] raises [ObjectNotFound], the GET and the
    DELETE of a single resource, and its PATCH once the document is valid
    and carries the identifier of the route, answer alike: the error
    response of the exception at the status the exception carries.  The
    fetch is the one call made: nothing is updated or deleted. *)
Theorem single_resource_miss (req : request) (kwargs : dict) (w : world)
        (e : JsonApiException) :
  get_object E kwargs (w_calls w) = Raise (JsonApi e) ->
  exc_cls e = ObjectNotFound ->
  let miss :=
    Ok (HTuple [jsonapi_errors E [to_dict E e]; VInt (exc_status e)]) in
  let fetched := (w_calls w ++ [get_object_call kwargs])%list in
  (fst (ResourceDetail.get E req kwargs w) = miss
   /\ w_calls (snd (ResourceDetail.get E req kwargs w)) = fetched)
  /\ (fst (ResourceDetail.delete E req kwargs w) = miss
      /\ w_calls (snd (ResourceDetail.delete E req kwargs w)) = fetched)
  /\ (forall data d i route_id : value,
         passes_validation E (patch_schema E (w_opts w)) (get_json req)
           data ->
         py_getitem (get_json req) "data" = Ok d ->
         py_getitem d "id" = Ok i ->
         lookup (url_field E) kwargs = Some route_id ->
         py_eq i route_id = true ->
         fst (ResourceDetail.patch E req kwargs w) = miss
         /\ w_calls (snd (ResourceDetail.patch E req kwargs w)) = fetched).
Proof.
  intros Hmiss Hcls miss fetched. subst miss fetched.
  split; [|split].
  - unfold ResourceDetail.get. run. rewrite Hmiss, Hcls. split; reflexivity.
  - unfold ResourceDetail.delete. run. rewrite Hmiss, Hcls.
    split; reflexivity.
  - intros data d i route_id Hpass Hdata Hid Hroute Heq.
    apply load_passes_validation in Hpass.
    pose proof (check_id_same _ _ _ _ _ Hdata Hid Hroute Heq) as Hcheck.
    destruct (patch_checked req kwargs w data Hpass Hcheck) as [Hfst Hsnd].
    rewrite Hfst, Hsnd, Hmiss, Hcls. split; reflexivity.
Qed.

(** X12.  Whatever the request, a PATCH on a single resource calls the
    data layer in one order: nothing, or [get_object], or [get_object]
    and then [update_object] on the object that [get_object] returned,
    with the data of a document that passed the schema. *)
Theorem patch_calls_in_order (req : request) (kwargs : dict) (w : world) :
  let after := snd (ResourceDetail.patch E req kwargs w) in
  w_calls after = w_calls w
  \/ w_calls after = (w_calls w ++ [get_object_call kwargs])%list
  \/ exists (o : obj) (data : value),
      get_object E kwargs (w_calls w) = Ok o
      /\ passes_validation E (patch_schema E (w_opts w)) (get_json req) data
      /\ w_calls after
         = (w_calls w ++ [get_object_call kwargs;
                          update_object_call o data kwargs])%list.
Proof.
  destruct (load E (patch_schema E (w_opts w)) (get_json req))
    as [[errors|data]|x] eqn:Hload.
  - destruct (patch_load_error E req kwargs w errors Hload)
      as [w' [Hcalls Hrun]].
    left. simpl. now rewrite Hrun.
  - destruct (ResourceDetail.check_id E (get_json req) kwargs)
      as [[]|x] eqn:Hcheck.
    + destruct (patch_checked req kwargs w data Hload Hcheck) as [_ Hsnd].
      simpl. rewrite Hsnd.
      destruct (get_object E kwargs (w_calls w)) as [o|x] eqn:Hget.
      * right. right. exists o, data. split; [reflexivity|].
        split; [now apply load_data_passes|].
        now rewrite <- app_assoc.
      * right. now left.
    + left. simpl. revert Hload Hcheck. destruct w as [opts calls].
      unfold ResourceDetail.patch, patch_schema. run. intros Hload Hcheck.
      destruct (schema_patch_kwargs opts) as [d|]; simpl in *;
        rewrite Hload, Hcheck; simpl;
        (destruct x as [| | | | |e| |]; try reflexivity);
        (destruct (exc_cls e); reflexivity).
  - left. simpl. now destruct (patch_load_raises E req kwargs w x Hload).
Qed.

(** X13.  A PATCH whose document is valid and carries an [id] raises
    [KeyError] when the route has no argument named as the [url_field] of
    the data layer; it is not answered with an error response, and the
    data layer is not called. *)
Theorem patch_route_without_url_field (req : request) (kwargs : dict)
        (w : world) (data d i : value) :
  passes_validation E (patch_schema E (w_opts w)) (get_json req) data ->
  py_getitem (get_json req) "data" = Ok d ->
  py_getitem d "id" = Ok i ->
  lookup (url_field E) kwargs = None ->
  fst (ResourceDetail.patch E req kwargs w) = Raise KeyError
  /\ w_calls (snd (ResourceDetail.patch E req kwargs w)) = w_calls w.
Proof.
  intros Hpass Hdata Hid Hroute. apply load_passes_validation in Hpass.
  destruct (py_getitem_present _ _ _ Hid) as [Hin _].
  assert (Hcheck : ResourceDetail.check_id E (get_json req) kwargs
                   = Raise KeyError).
  { unfold ResourceDetail.check_id. rewrite Hdata. simpl. rewrite Hin. simpl.
    rewrite Hid. simpl. now rewrite Hroute. }
  revert Hpass Hcheck. destruct w as [opts calls].
  unfold ResourceDetail.patch, patch_schema. run. intros Hload Hcheck.
  destruct (schema_patch_kwargs opts) as [kw|]; simpl in *;
    rewrite Hload, Hcheck; split; reflexivity.
Qed.

(** X14.  The [id] of the document is compared with the route argument as
    Python compares values, so an [id] that is a string never agrees with
    a route argument that is an integer: such a PATCH is answered at 400
    with the mismatch at [/data/id], whatever the digits, and the data
    layer is not called. *)
Theorem patch_string_id_integer_route (req : request) (kwargs : dict)
        (w : world) (data d : value) (s : string) (z : Z) :
  passes_validation E (patch_schema E (w_opts w)) (get_json req) data ->
  py_getitem (get_json req) "data" = Ok d ->
  py_getitem d "id" = Ok (VStr s) ->
  lookup (url_field E) kwargs = Some (VInt z) ->
  fst (ResourceDetail.patch E req kwargs w)
  = Ok (HTuple
          [jsonapi_errors E
             [to_dict E
                (mkExc BadRequest "/data/id"
                   "Value of id does not match the resource identifier in url"
                   400)];
           VInt 400])
  /\ w_calls (snd (ResourceDetail.patch E req kwargs w)) = w_calls w.
Proof.
  intros Hpass Hdata Hid Hroute. apply load_passes_validation in Hpass.
  destruct (py_getitem_present _ _ _ Hid) as [Hin _].
  destruct (patch_check_id_error E req kwargs w data
              (mkExc BadRequest "/data/id"
                 "Value of id does not match the resource identifier in url"
                 400) Hpass) as [w' [Hcalls Hrun]].
  - unfold ResourceDetail.check_id. rewrite Hdata. simpl. rewrite Hin. simpl.
    rewrite Hid. simpl. now rewrite Hroute.
  - reflexivity.
  - rewrite Hrun. split; [reflexivity | exact Hcalls].
Qed.

(** X15.  A PATCH whose document is valid and carries the identifier of
    the route, on an object that [get_object] finds, calls [update_object]
    on that object with the loaded data, and answers with the dump of the
    object as the update leaves it; what [update_object] raises is not
    caught. *)
Theorem patch_updates_fetched_object (req : request) (kwargs : dict)
        (w : world) (data d i route_id : value) (o : obj) :
  passes_validation E (patch_schema E (w_opts w)) (get_json req) data ->
  py_getitem (get_json req) "data" = Ok d ->
  py_getitem d "id" = Ok i ->
  lookup (url_field E) kwargs = Some route_id ->
  py_eq i route_id = true ->
  get_object E kwargs (w_calls w) = Ok o ->
  let fetched := (w_calls w ++ [get_object_call kwargs])%list in
  fst (ResourceDetail.patch E req kwargs w)
  = obind (update_object E o data kwargs fetched)
      (fun o' => Ok (HValue (schema_dump E (patch_schema E (w_opts w)) o')))
  /\ w_calls (snd (ResourceDetail.patch E req kwargs w))
     = (fetched ++ [update_object_call o data kwargs])%list.
Proof.
  intros Hpass Hdata Hid Hroute Heq Hget fetched. subst fetched.
  apply load_passes_validation in Hpass.
  pose proof (check_id_same _ _ _ _ _ Hdata Hid Hroute Heq) as Hcheck.
  destruct (patch_checked req kwargs w data Hpass Hcheck) as [Hfst Hsnd].
  rewrite Hfst, Hsnd, Hget. split; reflexivity.
Qed.

(** X16.  Whatever the request, a DELETE on a single resource leaves the
    options of the class as they are and calls [get_object] first; it
    calls [delete_object] when [get_object] has returned an object and
    only then, on that object.  When both return, the answer is the empty
    body at 204. *)
Theorem delete_calls_in_order (req : request) (kwargs : dict) (w : world) :
  let after := snd (ResourceDetail.delete E req kwargs w) in
  let fetched := (w_calls w ++ [get_object_call kwargs])%list in
  w_opts after = w_opts w
  /\ w_calls after
     = match get_object E kwargs (w_calls w) with
       | Ok o => (fetched ++ [delete_object_call o kwargs])%list
       | Raise _ => fetched
       end
  /\ (forall o : obj,
         get_object E kwargs (w_calls w) = Ok o ->
         delete_object E o kwargs fetched = Ok tt ->
         fst (ResourceDetail.delete E req kwargs w)
         = Ok (HTuple [VStr EmptyString; VInt 204])).
Proof.
  unfold ResourceDetail.delete. run.
  destruct (get_object E kwargs (w_calls w)) as [o|x]; simpl.
  - split; [|split].
    + destruct (delete_object E o kwargs _); reflexivity.
    + destruct (delete_object E o kwargs _); reflexivity.
    + intros o' [= <-] Hdelete. now rewrite Hdelete.
  - split; [|split]; try discriminate;
      (destruct x as [| | | | |e| |]; try reflexivity);
      (destruct (exc_cls e); reflexivity).
Qed.
End DetailMore.

(** *** More of the relationship: the related link *)

Section RelatedLink.
Context {Schema : Type} (E : Collaborators Schema).
Local Open Scope list_scope.

Lemma set_key_middle {A} (k : string) (v v0 : A)
      (before rest : list (string * A)) :
  ~ In k (map fst before) ->
  set_key k v (before ++ (k, v0) :: rest) = before ++ (k, v) :: rest.
Proof.
  induction before as [|[k' v'] before IH]; simpl; intros Hnotin.
  - now rewrite String.eqb_refl.
  - destruct (String.eqb k' k) eqn:Hk.
    + apply String.eqb_eq in Hk. exfalso. apply Hnotin. now left.
    + rewrite IH; [reflexivity|]. intros Hin. apply Hnotin. now right.
Qed.

(** The loop of [Relationship.get] over the items that resolve: each
    writes its value in the place of its path, and the loop goes on with
    the items that are left. *)
Lemma resolve_prefix (o : obj) (items resolved : list (string * obj)) :
  Forall2 (resolves o) items resolved ->
  forall (done tail : list (string * obj)) (w : world),
    NoDup (map fst (done ++ items)) ->
    endpoint_kwargs (w_opts w) = Some (done ++ items ++ tail) ->
    exists w' : world,
      Relationship.resolve_endpoint_kwargs o (items ++ tail) w
      = Relationship.resolve_endpoint_kwargs o tail w'
      /\ endpoint_kwargs (w_opts w') = Some (done ++ resolved ++ tail)
      /\ w_calls w' = w_calls w.
Proof.
  induction 1 as [|[k v] [k' r] items resolved Hres _ IH];
    intros done tail w Hnodup Hkw.
  - exists w. now repeat split.
  - destruct Hres as [Hkey [path [Hv Hfollow]]]. simpl in Hkey, Hv, Hfollow.
    subst k' v.
    assert (Hnotin : ~ In k (map fst done)).
    { rewrite map_app in Hnodup. simpl in Hnodup.
      apply NoDup_remove_2 in Hnodup. intros Hin. apply Hnodup.
      apply in_or_app. now left. }
    destruct (IH (done ++ [(k, r)]) tail
                 (mkWorld (set_endpoint_kwargs
                             (done ++ (k, r) :: items ++ tail) (w_opts w))
                          (w_calls w)))
      as [w' [Hrun [Hkw' Hcalls]]].
    + rewrite <- app_assoc. simpl.
      rewrite map_app in *. simpl in *. exact Hnodup.
    + simpl. now rewrite <- app_assoc.
    + exists w'. split; [|split].
      * rewrite <- Hrun. simpl. run. rewrite Hfollow. simpl. rewrite Hkw.
        simpl.
        now rewrite (set_key_middle k r (OVal (VStr path)) done
                       (items ++ tail) Hnotin).
      * rewrite Hkw'. now rewrite <- app_assoc.
      * exact Hcalls.
Qed.

Lemma resolve_breaks (o : obj) (k : string) (v : obj)
      (rest : list (string * obj)) (w : world) (x : exn) :
  breaks o (k, v) x ->
  Relationship.resolve_endpoint_kwargs o ((k, v) :: rest) w = (Raise x, w).
Proof.
  unfold breaks. simpl. intros Hbreak. run.
  destruct (Relationship.split_value v) as [fields|y]; simpl in *.
  - now rewrite Hbreak.
  - now injection Hbreak as ->.
Qed.

(** X17.  On a class whose options have no [endpoint_kwargs], a GET on a
    relationship leaves the options as they are, whatever the request,
    and makes one call of the data layer: [get_relation], with the
    related type of the class and the configured field, or [id]. *)
Theorem relationship_get_without_template (self : View) (req : request)
        (kwargs : dict) (w : world) :
  endpoint_kwargs (w_opts w) = None ->
  let after := snd (Relationship.get E self req kwargs w) in
  w_opts after = w_opts w
  /\ w_calls after
     = (w_calls w
          ++ [get_relation_call (related_type_ self)
                (related_id_field_of (w_opts w)) kwargs])%list.
Proof.
  intros Hnone. unfold Relationship.get. run.
  destruct (get_relation E _ _ _ _) as [[o data]|x]; simpl.
  - rewrite Hnone. simpl.
    destruct (qs_include E _) as [|i more]; simpl; [split; reflexivity|].
    destruct (compute_schema E _ _ _) as [[schema|x] left]; simpl.
    + destruct (py_getitem _ _); split; reflexivity.
    + destruct x as [| | | | |e| |]; try (split; reflexivity).
      destruct (exc_cls e); split; reflexivity.
  - destruct x as [| | | | |e| |]; try (split; reflexivity).
    destruct (exc_cls e); split; reflexivity.
Qed.

(** X18.  On a class whose options map each key of [endpoint_kwargs] to a
    path that leads somewhere on the object of the relation, a GET on the
    relationship leaves under every key the value its path led to: the
    paths are gone from the options of the class.  The related link of the
    answer is built from these values. *)
Theorem relationship_get_resolves_every_key (self : View) (req : request)
        (kwargs : dict) (w : world) (o : obj) (data : value)
        (template resolved : list (string * obj)) :
  endpoint_kwargs (w_opts w) = Some template ->
  NoDup (map fst template) ->
  get_relation E (related_type_ self) (related_id_field_of (w_opts w))
    kwargs (w_calls w) = Ok (o, data) ->
  Forall2 (resolves o) template resolved ->
  endpoint_kwargs (w_opts (snd (Relationship.get E self req kwargs w)))
  = Some resolved
  /\ (qs_include E (mkQS (args req)) = [] ->
      fst (Relationship.get E self req kwargs w)
      = Ok (HValue
              (VDict
                 [("links",
                   VDict [("self",
                           VStr (url_for E (endpoint self) (as_objs kwargs)));
                          ("related",
                           VStr (url_for E (related_endpoint self)
                                   resolved))]);
                  ("data", data)]))).
Proof.
  intros Hkw Hnodup Hrel Hres.
  destruct (resolve_prefix o template resolved Hres [] []
              (mkWorld (w_opts w)
                 (w_calls w
                    ++ [get_relation_call (related_type_ self)
                          (related_id_field_of (w_opts w)) kwargs])))
    as [w' [Hrun [Hkw' Hcalls]]].
  - exact Hnodup.
  - simpl. now rewrite app_nil_r.
  - rewrite app_nil_r in Hrun. simpl in Hrun, Hkw'.
    rewrite app_nil_r in Hkw'.
    unfold Relationship.get. run. rewrite Hrel. simpl. rewrite Hkw.
    rewrite Hrun. unfold ret. simpl. rewrite Hkw'. split.
    + destruct (qs_include E _) as [|i more]; simpl; [exact Hkw'|].
      destruct (compute_schema E _ _ _) as [[schema|x] left]; simpl.
      * destruct (py_getitem _ _); exact Hkw'.
      * destruct x as [| | | | |e| |]; try exact Hkw'.
        destruct (exc_cls e); exact Hkw'.
    + intros Hinclude. now rewrite Hinclude.
Qed.

(** X19.  When a path of [endpoint_kwargs] leads nowhere on the object, or
    a value of [endpoint_kwargs] is no string, the GET raises what the
    lookup raises, and the keys before it stay written: the options of the
    class hold the values of the paths that came first, then the paths
    that were left. *)
Theorem relationship_get_stops_half_written (self : View) (req : request)
        (kwargs : dict) (w : world) (o : obj) (data : value)
        (before resolved : list (string * obj)) (k : string) (v : obj)
        (rest : list (string * obj)) (x : exn) :
  endpoint_kwargs (w_opts w) = Some (before ++ (k, v) :: rest) ->
  NoDup (map fst before) ->
  get_relation E (related_type_ self) (related_id_field_of (w_opts w))
    kwargs (w_calls w) = Ok (o, data) ->
  Forall2 (resolves o) before resolved ->
  breaks o (k, v) x ->
  fst (Relationship.get E self req kwargs w) = Raise x
  /\ endpoint_kwargs (w_opts (snd (Relationship.get E self req kwargs w)))
     = Some (resolved ++ (k, v) :: rest).
Proof.
  intros Hkw Hnodup Hrel Hres Hbreak.
  destruct (resolve_prefix o before resolved Hres [] ((k, v) :: rest)
              (mkWorld (w_opts w)
                 (w_calls w
                    ++ [get_relation_call (related_type_ self)
                          (related_id_field_of (w_opts w)) kwargs])))
    as [w' [Hrun [Hkw' Hcalls]]].
  - exact Hnodup.
  - exact Hkw.
  - simpl in Hkw'.
    unfold Relationship.get. run. rewrite Hrel. simpl. rewrite Hkw.
    rewrite Hrun. rewrite (resolve_breaks o k v rest w' x Hbreak).
    split; [reflexivity | exact Hkw'].
Qed.

(** X20.  When the query string asks for relationships to be included,
    the relation is found, the related link can be built (the options have
    no [endpoint_kwargs], or every path of it leads somewhere on the
    object) and the schema is computed, a dump of the object that has no
    key [included] makes the GET on a relationship raise [KeyError]: it
    does not answer without the included part.  The fetch of the relation
    is the one call of the data layer. *)
Theorem relationship_get_nothing_included (self : View) (req : request)
        (kwargs : dict) (w : world) (o : obj) (data : value)
        (schema : Schema) (dumped : dict) :
  let qs := mkQS (args req) in
  let answer := Relationship.get E self req kwargs w in
  get_relation E (related_type_ self) (related_id_field_of (w_opts w))
    kwargs (w_calls w) = Ok (o, data) ->
  endpoint_kwargs (w_opts w) = None
  \/ (exists template resolved : list (string * obj),
         endpoint_kwargs (w_opts w) = Some template
         /\ NoDup (map fst template)
         /\ Forall2 (resolves o) template resolved) ->
  qs_include E qs <> [] ->
  fst (compute_schema E [] qs (Some (qs_include E qs))) = Ok schema ->
  schema_dump E schema o = VDict dumped ->
  lookup "included" dumped = None ->
  fst answer = Raise KeyError
  /\ w_calls (snd answer)
     = w_calls w
         ++ [get_relation_call (related_type_ self)
               (related_id_field_of (w_opts w)) kwargs].
Proof.
  intros qs answer Hrel Hlink Hinclude Hschema Hdump Hkey. subst qs answer.
  destruct Hlink as [Hnone | [template [resolved [Hkw [Hnodup Hres]]]]].
  - unfold Relationship.get. run. rewrite Hrel. simpl. rewrite Hnone. simpl.
    destruct (qs_include E _) as [|i more] eqn:Hqs; [congruence|]. simpl.
    rewrite Hschema. simpl. rewrite Hdump. simpl. rewrite Hkey.
    split; reflexivity.
  - destruct (resolve_prefix o template resolved Hres [] []
                (mkWorld (w_opts w)
                   (w_calls w
                      ++ [get_relation_call (related_type_ self)
                            (related_id_field_of (w_opts w)) kwargs])))
      as [w' [Hrun [Hkw' Hcalls]]].
    + exact Hnodup.
    + simpl. now rewrite app_nil_r.
    + rewrite app_nil_r in Hrun. simpl in Hrun, Hkw', Hcalls.
      unfold Relationship.get. run. rewrite Hrel. simpl. rewrite Hkw.
      rewrite Hrun. unfold ret. simpl. rewrite Hkw'.
      destruct (qs_include E _) as [|i more] eqn:Hqs; [congruence|]. simpl.
      rewrite Hschema. simpl. rewrite Hdump. simpl. rewrite Hkey.
      split; [reflexivity | exact Hcalls].
Qed.
End RelatedLink.

(** *** More of the relationship: the mutators *)

Section MutatorsMore.
Context {Schema : Type} (E : Collaborators Schema).
Local Open Scope list_scope.

Lemma py_eq_str (v : value) (t : string) :
  py_eq v (VStr t) = true <-> v = VStr t.
Proof.
  destruct v as [| | |s| |]; simpl; split; try discriminate.
  - intros Heq. apply String.eqb_eq in Heq. now subst.
  - intros [= ->]. apply String.eqb_refl.
Qed.

Lemma check_item_well_formed (type_ detail : string) (d : dict) :
  check_item E (Ok (VStr type_)) detail (VDict d) = Ok tt
  <-> well_formed_item type_ (VDict d).
Proof.
  unfold check_item, well_formed_item. simpl. split.
  - destruct (lookup "type" d) as [t|] eqn:Ht; simpl; [|discriminate].
    destruct (lookup "id" d) as [i|] eqn:Hi; simpl; [|discriminate].
    destruct (py_eq t (VStr type_)) eqn:Heq; simpl; [|discriminate].
    intros _. exists d. apply py_eq_str in Heq. subst t.
    split; [reflexivity|]. split; [exact Ht | congruence].
  - intros [d' [[= <-] [Ht Hi]]]. rewrite Ht. simpl.
    destruct (lookup "id" d) as [i|]; [|congruence]. simpl.
    now rewrite String.eqb_refl.
Qed.

Lemma for_each_all {A} (body : A -> outcome unit) (l : list A) :
  for_each body l = Ok tt <-> Forall (fun x => body x = Ok tt) l.
Proof.
  induction l as [|x l IH]; simpl.
  - split; [constructor | reflexivity].
  - split.
    + destruct (body x) as [[]|e] eqn:Hx; simpl; [|discriminate].
      intros Hrest. constructor; [exact Hx | now apply IH].
    + intros Hall. inversion Hall as [|? ? Hx Hrest]; subst.
      rewrite Hx. simpl. now apply IH.
Qed.

(** A list of dicts passes the [try] block of [post] and [delete] when
    every item is well formed, and only then. *)
Lemma check_list_document_well_formed (type_ : string) (doc : value)
      (items : list value) :
  py_getitem doc "data" = Ok (VList items) ->
  Forall (fun o => is_dict o = true) items ->
  check_list_document E type_ doc = Ok tt
  <-> Forall (well_formed_item type_) items.
Proof.
  intros Hdata Hdicts.
  rewrite (check_list_document_items E type_ doc items Hdata).
  rewrite for_each_all. clear Hdata.
  induction Hdicts as [|o items Ho _ IH].
  - split; constructor.
  - destruct o as [| | | | |d]; try discriminate. split.
    + intros Hall. inversion Hall as [|? ? Hx Hrest]; subst.
      constructor; [now apply check_item_well_formed in Hx | now apply IH].
    + intros Hall. inversion Hall as [|? ? Hx Hrest]; subst.
      constructor; [now apply check_item_well_formed | now apply IH].
Qed.

Lemma forward_runs (classes : list exc_class) (c : call)
      (answer : list call -> outcome unit) (w : world) :
  snd (Relationship.forward E classes c answer w)
  = mkWorld (w_opts w) (w_calls w ++ [c])
  /\ fst (Relationship.forward E classes c answer w)
     = match answer (w_calls w) with
       | Ok _ => Ok (HValue (VStr EmptyString))
       | Raise (JsonApi e) =>
           if existsb (exc_class_eqb (exc_cls e)) classes
           then Ok (error_response E e)
           else Raise (JsonApi e)
       | Raise x => Raise x
       end.
Proof.
  unfold Relationship.forward. run.
  destruct (answer (w_calls w)) as [[]|x]; [split; reflexivity|].
  destruct x as [| | | | |e| |]; try (split; reflexivity).
  destruct (existsb (exc_class_eqb (exc_cls e)) classes); split; reflexivity.
Qed.

Lemma post_forwards (self : View) (req : request) (kwargs : dict)
      (w : world) :
  check_list_document E (schema_type_ self) (get_json req) = Ok tt ->
  Relationship.post E self req kwargs w
  = Relationship.forward E [RelationNotFound; ObjectNotFound]
      (create_relation_call (get_json req) (related_id_field_of (w_opts w))
         kwargs)
      (create_relation E (get_json req) (related_id_field_of (w_opts w))
         kwargs) w.
Proof. intros Hcheck. unfold Relationship.post. run. now rewrite Hcheck. Qed.

Lemma delete_forwards (self : View) (req : request) (kwargs : dict)
      (w : world) :
  check_list_document E (schema_type_ self) (get_json req) = Ok tt ->
  Relationship.delete E self req kwargs w
  = Relationship.forward E [RelationNotFound]
      (delete_relation_call (get_json req) (related_id_field_of (w_opts w))
         kwargs)
      (delete_relation E (get_json req) (related_id_field_of (w_opts w))
         kwargs) w.
Proof.
  intros Hcheck. unfold Relationship.delete. run. now rewrite Hcheck.
Qed.

Lemma patch_forwards (self : View) (req : request) (kwargs : dict)
      (w : world) :
  Relationship.check_document E self (schema_type_ self) (get_json req)
  = Ok tt ->
  Relationship.patch E self req kwargs w
  = Relationship.forward E [RelationNotFound; ObjectNotFound]
      (update_relation_call (get_json req) (related_id_field_of (w_opts w))
         kwargs)
      (update_relation E (get_json req) (related_id_field_of (w_opts w))
         kwargs) w.
Proof. intros Hcheck. unfold Relationship.patch. run. now rewrite Hcheck. Qed.

Lemma not_longer {A} (l : list A) (x : A) : l ++ [x] <> l.
Proof.
  intros Heq. apply (f_equal (@length A)) in Heq.
  rewrite length_app in Heq. simpl in Heq. lia.
Qed.

(** X21.  For a document whose data is a list of objects, the POST and
    the DELETE of a relationship call the data layer when every item has
    the type of the schema as its [type] and has an [id], and only then;
    the [id] is not looked into, and the call has the document as it
    came. *)
Theorem list_document_forwarded_iff_well_formed (self : View)
        (req : request) (kwargs : dict) (w : world) (items : list value) :
  py_getitem (get_json req) "data" = Ok (VList items) ->
  Forall (fun o => is_dict o = true) items ->
  let doc := get_json req in
  let field := related_id_field_of (w_opts w) in
  (w_calls (snd (Relationship.post E self req kwargs w))
   = w_calls w ++ [create_relation_call doc field kwargs]
   <-> Forall (well_formed_item (schema_type_ self)) items)
  /\ (w_calls (snd (Relationship.delete E self req kwargs w))
      = w_calls w ++ [delete_relation_call doc field kwargs]
      <-> Forall (well_formed_item (schema_type_ self)) items).
Proof.
  intros Hdata Hdicts doc field. subst doc field.
  pose proof (check_list_document_well_formed (schema_type_ self) _ _
                Hdata Hdicts) as Hiff.
  split; split.
  - intros Hcalls. apply Hiff.
    destruct (check_list_document E (schema_type_ self) (get_json req))
      as [[]|x] eqn:Hcheck; [reflexivity|]. exfalso.
    destruct (list_mutators_stopped E self req kwargs w
                (Relationship.post E self)) as [Hsame _].
    + now left.
    + rewrite Hcheck. discriminate.
    + rewrite Hsame in Hcalls. symmetry in Hcalls.
      exact (not_longer _ _ Hcalls).
  - intros Hall. apply Hiff in Hall. rewrite (post_forwards _ _ _ _ Hall).
    now destruct (forward_runs [RelationNotFound; ObjectNotFound]
                    (create_relation_call (get_json req)
                       (related_id_field_of (w_opts w)) kwargs)
                    (create_relation E (get_json req)
                       (related_id_field_of (w_opts w)) kwargs) w)
      as [-> _].
  - intros Hcalls. apply Hiff.
    destruct (check_list_document E (schema_type_ self) (get_json req))
      as [[]|x] eqn:Hcheck; [reflexivity|]. exfalso.
    destruct (list_mutators_stopped E self req kwargs w
                (Relationship.delete E self)) as [Hsame _].
    + right. now left.
    + rewrite Hcheck. discriminate.
    + rewrite Hsame in Hcalls. symmetry in Hcalls.
      exact (not_longer _ _ Hcalls).
  - intros Hall. apply Hiff in Hall. rewrite (delete_forwards _ _ _ _ Hall).
    now destruct (forward_runs [RelationNotFound]
                    (delete_relation_call (get_json req)
                       (related_id_field_of (w_opts w)) kwargs)
                    (delete_relation E (get_json req)
                       (related_id_field_of (w_opts w)) kwargs) w)
      as [-> _].
Qed.

(** X22.  When the data layer raises [ObjectNotFound] on a well-formed
    document, the POST of a relationship answers with the error response
    of the exception, and the DELETE does not catch it: the exception
    leaves the handler. *)
Theorem delete_lets_object_not_found_through (self : View) (req : request)
        (kwargs : dict) (w : world) (items : list value)
        (e : JsonApiException) :
  py_getitem (get_json req) "data" = Ok (VList items) ->
  Forall (fun o => is_dict o = true) items ->
  Forall (well_formed_item (schema_type_ self)) items ->
  exc_cls e = ObjectNotFound ->
  let doc := get_json req in
  let field := related_id_field_of (w_opts w) in
  (create_relation E doc field kwargs (w_calls w) = Raise (JsonApi e) ->
   fst (Relationship.post E self req kwargs w)
   = Ok (HTuple [jsonapi_errors E [to_dict E e]; VInt (exc_status e)]))
  /\ (delete_relation E doc field kwargs (w_calls w) = Raise (JsonApi e) ->
      fst (Relationship.delete E self req kwargs w) = Raise (JsonApi e)).
Proof.
  intros Hdata Hdicts Hall Hcls doc field. subst doc field.
  apply (check_list_document_well_formed (schema_type_ self) _ _
           Hdata Hdicts) in Hall.
  split; intros Hraise.
  - rewrite (post_forwards _ _ _ _ Hall).
    destruct (forward_runs [RelationNotFound; ObjectNotFound]
                (create_relation_call (get_json req)
                   (related_id_field_of (w_opts w)) kwargs)
                (create_relation E (get_json req)
                   (related_id_field_of (w_opts w)) kwargs) w)
      as [_ ->].
    rewrite Hraise. simpl. now rewrite Hcls.
  - rewrite (delete_forwards _ _ _ _ Hall).
    destruct (forward_runs [RelationNotFound]
                (delete_relation_call (get_json req)
                   (related_id_field_of (w_opts w)) kwargs)
                (delete_relation E (get_json req)
                   (related_id_field_of (w_opts w)) kwargs) w)
      as [_ ->].
    rewrite Hraise. simpl. now rewrite Hcls.
Qed.

Lemma check_document_list (self : View) (doc : value) (items : list value) :
  py_getitem doc "data" = Ok (VList items) ->
  Relationship.check_document E self (schema_type_ self) doc
  = for_each (check_item E (Relationship.self_type_ self)
                "The type provided does not match the resource type") items.
Proof.
  intros Hdata. destruct (py_getitem_present _ _ _ Hdata) as [Hin _].
  unfold Relationship.check_document. now rewrite Hin, Hdata.
Qed.

(** X23.  On a class whose attribute [type_] is the type of its schema,
    the PATCH of a relationship checks a list as the POST does: a document
    whose data is a list passes both or neither, and one that does not
    pass gets from both the same answer, in the same state. *)
Theorem patch_list_checked_as_post (self : View) (req : request)
        (kwargs : dict) (w : world) (items : list value) :
  type_ self = Some (VStr (schema_type_ self)) ->
  py_getitem (get_json req) "data" = Ok (VList items) ->
  Relationship.check_document E self (schema_type_ self) (get_json req)
  = check_list_document E (schema_type_ self) (get_json req)
  /\ (check_list_document E (schema_type_ self) (get_json req) <> Ok tt ->
      Relationship.patch E self req kwargs w
      = Relationship.post E self req kwargs w).
Proof.
  intros Hattr Hdata.
  assert (Hsame : Relationship.check_document E self (schema_type_ self)
                    (get_json req)
                  = check_list_document E (schema_type_ self) (get_json req)).
  { rewrite (check_document_list self _ _ Hdata).
    rewrite (check_list_document_items E _ _ _ Hdata).
    unfold Relationship.self_type_. now rewrite Hattr. }
  split; [exact Hsame|]. intros Hfail.
  unfold Relationship.patch, Relationship.post. run. rewrite Hsame.
  destruct (check_list_document E (schema_type_ self) (get_json req))
    as [[]|x]; [congruence|].
  destruct x as [| | | | |e| |]; try reflexivity.
  destruct (exc_cls e); reflexivity.
Qed.

(** X24.  A document whose data is the empty list passes the three
    mutators of a relationship, whether or not the class has an attribute
    [type_]: each makes its call of the data layer with the document. *)
Theorem empty_list_forwarded (self : View) (req : request) (kwargs : dict)
        (w : world) :
  py_getitem (get_json req) "data" = Ok (VList []) ->
  let doc := get_json req in
  let field := related_id_field_of (w_opts w) in
  w_calls (snd (Relationship.post E self req kwargs w))
  = w_calls w ++ [create_relation_call doc field kwargs]
  /\ w_calls (snd (Relationship.patch E self req kwargs w))
     = w_calls w ++ [update_relation_call doc field kwargs]
  /\ w_calls (snd (Relationship.delete E self req kwargs w))
     = w_calls w ++ [delete_relation_call doc field kwargs].
Proof.
  intros Hdata doc field. subst doc field.
  assert (Hlist : check_list_document E (schema_type_ self) (get_json req)
                  = Ok tt)
    by now rewrite (check_list_document_items E _ _ _ Hdata).
  assert (Hpatch : Relationship.check_document E self (schema_type_ self)
                     (get_json req) = Ok tt)
    by now rewrite (check_document_list self _ _ Hdata).
  rewrite (post_forwards _ _ _ _ Hlist), (delete_forwards _ _ _ _ Hlist),
    (patch_forwards _ _ _ _ Hpatch).
  split; [|split].
  - now destruct (forward_runs [RelationNotFound; ObjectNotFound]
                    (create_relation_call (get_json req)
                       (related_id_field_of (w_opts w)) kwargs)
                    (create_relation E (get_json req)
                       (related_id_field_of (w_opts w)) kwargs) w)
      as [-> _].
  - now destruct (forward_runs [RelationNotFound; ObjectNotFound]
                    (update_relation_call (get_json req)
                       (related_id_field_of (w_opts w)) kwargs)
                    (update_relation E (get_json req)
                       (related_id_field_of (w_opts w)) kwargs) w)
      as [-> _].
  - now destruct (forward_runs [RelationNotFound]
                    (delete_relation_call (get_json req)
                       (related_id_field_of (w_opts w)) kwargs)
                    (delete_relation E (get_json req)
                       (related_id_field_of (w_opts w)) kwargs) w)
      as [-> _].
Qed.
End MutatorsMore.

Section TypeChecks.
Context {Schema : Type} (E : Collaborators Schema).
Local Open Scope list_scope.

Lemma well_formed_items_pass (type_ detail : string) (items : list value) :
  Forall (well_formed_item type_) items ->
  Forall (fun x => check_item E (Ok (VStr type_)) detail x = Ok tt) items.
Proof.
  induction 1 as [|o items Ho _ IH]; constructor; [|exact IH].
  destruct Ho as [d [-> Hwf]].
  apply check_item_well_formed. now exists d.
Qed.

Lemma py_eq_other_str (t : value) (s : string) :
  t <> VStr s -> py_eq t (VStr s) = false.
Proof.
  intros Hne. destruct (py_eq t (VStr s)) eqn:Heq; [|reflexivity].
  now apply py_eq_str in Heq.
Qed.

Lemma lookup_present {A} (k : string) (d : list (string * A)) :
  lookup k d <> None ->
  match lookup k d with Some _ => true | None => false end = true.
Proof. destruct (lookup k d); congruence. Qed.

(** X25.  An object with an [id] whose [type] is not the type of the
    schema is refused through [InvalidType], at the status of that class
    and with the source [/data/type]: by the POST and the DELETE of a
    relationship when it is the first item of the list to fail a check,
    and by the PATCH when it is the data itself.  The data layer is not
    called. *)
Theorem other_type_refused_through_invalid_type (self : View)
        (req : request) (kwargs : dict) (w : world) (d : dict) (t : value) :
  lookup "type" d = Some t ->
  t <> VStr (schema_type_ self) ->
  lookup "id" d <> None ->
  let refused (detail : string) :=
    (Ok (HTuple [jsonapi_errors E
                   [to_dict E
                      (mkExc InvalidType "/data/type" detail
                         (InvalidType_status E))];
                 VInt (InvalidType_status E)]), w) in
  (forall before rest : list value,
      py_getitem (get_json req) "data"
      = Ok (VList (before ++ VDict d :: rest)) ->
      Forall (well_formed_item (schema_type_ self)) before ->
      Relationship.post E self req kwargs w
      = refused "The type provided does not match the resource type"
      /\ Relationship.delete E self req kwargs w
         = refused "The type provided does not match the resource type")
  /\ (py_getitem (get_json req) "data" = Ok (VDict d) ->
      Relationship.patch E self req kwargs w
      = refused "The type field does not match the resource type").
Proof.
  intros Htype Hother Hid refused. subst refused.
  apply py_eq_other_str in Hother.
  assert (Hhas_type : py_in "type" (VDict d) = Ok true)
    by (simpl; now rewrite Htype).
  assert (Hhas_id : py_in "id" (VDict d) = Ok true)
    by (simpl; now rewrite (lookup_present _ _ Hid)).
  assert (Hget : py_getitem (VDict d) "type" = Ok t)
    by (simpl; now rewrite Htype).
  split.
  - intros before rest Hdata Hbefore.
    apply (well_formed_items_pass _
             "The type provided does not match the resource type")
      in Hbefore.
    split.
    + apply (list_mutators_other_type E self req kwargs w
               (Relationship.post E self) before (VDict d) rest t);
        try assumption. now left.
    + apply (list_mutators_other_type E self req kwargs w
               (Relationship.delete E self) before (VDict d) rest t);
        try assumption. right. now left.
  - intros Hdata.
    now apply (patch_object_other_type E self req kwargs w (VDict d) t).
Qed.

(** X26.  On a class without an attribute [type_], the PATCH of a
    relationship raises [AttributeError] for every list whose first item
    has a [type] and an [id], the type of the schema or another: a
    to-many relationship cannot be replaced by a list that is not empty.
    The data layer is not called. *)
Theorem patch_list_needs_type_attribute (self : View) (req : request)
        (kwargs : dict) (w : world) (d : dict) (rest : list value) :
  type_ self = None ->
  py_getitem (get_json req) "data" = Ok (VList (VDict d :: rest)) ->
  lookup "type" d <> None ->
  lookup "id" d <> None ->
  Relationship.patch E self req kwargs w = (Raise AttributeError, w).
Proof.
  intros Hattr Hdata Htype Hid.
  destruct (lookup "type" d) as [t|] eqn:Ht; [|congruence].
  apply (patch_list_without_attribute E self req kwargs w (VDict d) rest t);
    try assumption.
  - simpl. now rewrite Ht.
  - simpl. now rewrite (lookup_present _ _ Hid).
  - simpl. now rewrite Ht.
Qed.
End TypeChecks.

(** *** The metaclasses *)

Section Metaclasses.
Context (not_allowed_method : decorator)
        (construct : DataLayerClass -> dict -> option class_error)
        (configure : DataLayerClass -> dict -> option MetaClass
                     -> option class_error).

Lemma disable_attr (methods : list string) (cls : Class) (n : string) :
  cls_attr (ResourceMeta.disable not_allowed_method methods cls) n
  = option_map (Nat.iter (disabled_times methods n) not_allowed_method)
               (cls_attr cls n).
Proof.
  revert cls. induction methods as [|m rest IH]; intros cls; simpl.
  - now destruct (cls_attr cls n).
  - rewrite IH. unfold disabled_times. simpl.
    destruct (String.eqb (lower m) n) eqn:Hn.
    + apply String.eqb_eq in Hn. subst n.
      destruct (cls_attr cls (lower m)) as [h|] eqn:Hattr; simpl.
      * rewrite String.eqb_refl. simpl. now rewrite <- Nat.iter_succ_r.
      * now rewrite Hattr.
    + destruct (cls_attr cls (lower m)) as [h|]; simpl; [|reflexivity].
      rewrite String.eqb_sym in Hn. now rewrite Hn.
Qed.

Lemma disable_rest (methods : list string) (cls : Class) :
  cls_data_layer (ResourceMeta.disable not_allowed_method methods cls)
  = cls_data_layer cls
  /\ cls_opts (ResourceMeta.disable not_allowed_method methods cls)
     = cls_opts cls.
Proof.
  revert cls. induction methods as [|m rest IH]; intros cls; simpl.
  - now split.
  - destruct (IH (match cls_attr cls (lower m) with
                  | Some h => setattr cls (lower m) (not_allowed_method h)
                  | None => cls
                  end)) as [-> ->].
    destruct (cls_attr cls (lower m)); now split.
Qed.

(** What [ResourceMeta] leaves of the attributes of a class it creates. *)
Lemma init_attr (cls cls' : Class) (name : string) (nmspc : Namespace)
      (n : string) :
  ResourceMeta.__init__ not_allowed_method construct configure cls name
    nmspc = Created cls' ->
  cls_attr cls' n
  = option_map
      (Nat.iter
         (disabled_times
            (match Meta_ nmspc with
             | Some meta => or_empty (not_allowed_methods meta)
             | None => []
             end) n)
         not_allowed_method)
      (cls_attr cls n).
Proof.
  unfold ResourceMeta.__init__.
  match goal with
  | |- (if ?guard then _ else _) = _ -> _ =>
      destruct guard; [discriminate|]
  end.
  destruct (data_layer_kwargs nmspc) as [[| | | | |kw]|]; try discriminate.
  - intros [= <-]; simpl.
    destruct (Meta_ nmspc) as [meta|]; simpl;
      [now rewrite disable_attr | now destruct (cls_attr cls n)].
  - destruct (match Meta_ nmspc with
              | Some m => data_layer m
              | None => None
              end) as [[c|]|]; try discriminate;
      (destruct (construct _ kw); [discriminate|]);
      (destruct (configure _ kw _); [discriminate|]);
      intros [= <-]; simpl;
      (destruct (Meta_ nmspc) as [meta|]; simpl;
       [now rewrite disable_attr | now destruct (cls_attr cls n)]).
  - intros [= <-]; simpl.
    destruct (Meta_ nmspc) as [meta|]; simpl;
      [now rewrite disable_attr | now destruct (cls_attr cls n)].
Qed.

Lemma decorate_attr (name : string) (decorators : list decorator)
      (cls : Class) (h : handler) :
  cls_attr cls name = Some h ->
  exists cls' : Class,
    decorate name decorators cls = Created cls'
    /\ cls_attr cls' name = Some (fold_left (fun g d => d g) decorators h)
    /\ (forall n : string, n <> name -> cls_attr cls' n = cls_attr cls n)
    /\ cls_data_layer cls' = cls_data_layer cls
    /\ cls_opts cls' = cls_opts cls.
Proof.
  revert cls h. induction decorators as [|d rest IH]; intros cls h Hattr.
  - exists cls. simpl. now repeat split.
  - simpl. rewrite Hattr.
    destruct (IH (setattr cls name (d h)) (d h))
      as [cls' [Hrun [Hname [Hother [Hdl Hopts]]]]].
    + simpl. now rewrite String.eqb_refl.
    + exists cls'. split; [exact Hrun|]. split; [exact Hname|].
      split; [|split; assumption].
      intros n Hn. rewrite (Hother n Hn). simpl.
      apply String.eqb_neq in Hn. now rewrite Hn.
Qed.

(** X27.  After [ResourceMeta] has created a class, each handler of the
    class is wrapped in [not_allowed_method] once for every entry of
    [not_allowed_methods] that names it, whatever the case of the entry; a
    handler no entry names is as it was, and a name the class does not
    have stays without a handler. *)
Theorem meta_disables_by_lowercase_name (cls cls' : Class) (name : string)
        (nmspc : Namespace) (meta : MetaClass) :
  ResourceMeta.__init__ not_allowed_method construct configure cls name nmspc = Created cls' ->
  Meta_ nmspc = Some meta ->
  forall n : string,
    cls_attr cls' n
    = option_map
        (Nat.iter (disabled_times (or_empty (not_allowed_methods meta)) n)
           not_allowed_method)
        (cls_attr cls n).
Proof.
  intros Hinit Hmeta n. rewrite (init_attr cls cls' name nmspc n Hinit).
  now rewrite Hmeta.
Qed.

(** X28.  A verb the class has no handler for is not given one by
    [not_allowed_methods]: on the class [ResourceMeta] creates, a request
    with that verb still fails the assertion of [dispatch_request]; it is
    not answered by the handler of the methods that are not allowed. *)
Theorem disabled_unknown_verb_stays_unbound {Schema : Type}
        (E : Collaborators Schema) (cls cls' : Class) (name : string)
        (nmspc : Namespace) (req : request) (kwargs : dict) (w : world) :
  ResourceMeta.__init__ not_allowed_method construct configure cls name nmspc = Created cls' ->
  cls_attr cls (lower (method req)) = None ->
  method req <> "HEAD" \/ cls_attr cls "get" = None ->
  Resource.dispatch_request E (cls_attr cls') req kwargs w
  = (Raise AssertionError, w).
Proof.
  intros Hinit Hverb Hhead. unfold Resource.dispatch_request.
  rewrite (init_attr cls cls' name nmspc _ Hinit), Hverb. simpl.
  destruct Hhead as [Hhead | Hget].
  - apply String.eqb_neq in Hhead. now rewrite Hhead.
  - destruct (String.eqb (method req) "HEAD"); [|reflexivity].
    now rewrite (init_attr cls cls' name nmspc _ Hinit), Hget.
Qed.

(** X29.  [ResourceListMeta] wraps the GET and the POST handler of the
    class in the decorators of [get_decorators] and [post_decorators], the
    first of the list innermost, around the handler as [ResourceMeta]
    leaves it: a handler that is not allowed is decorated too.  Every
    other attribute is as [ResourceMeta] leaves it, so [patch_decorators]
    and [delete_decorators] have no effect on a collection. *)
Theorem list_meta_decorates_get_and_post (cls base : Class) (name : string)
        (nmspc : Namespace) (meta : MetaClass) (get post : handler) :
  ResourceMeta.__init__ not_allowed_method construct configure cls name nmspc = Created base ->
  Meta_ nmspc = Some meta ->
  cls_attr base "get" = Some get ->
  cls_attr base "post" = Some post ->
  exists cls' : Class,
    ResourceListMeta.__init__ not_allowed_method construct configure cls name
      nmspc = Created cls'
    /\ cls_attr cls' "get"
       = Some (fold_left (fun g d => d g) (or_empty (get_decorators meta))
                 get)
    /\ cls_attr cls' "post"
       = Some (fold_left (fun g d => d g) (or_empty (post_decorators meta))
                 post)
    /\ forall n : string,
        n <> "get" -> n <> "post" -> cls_attr cls' n = cls_attr base n.
Proof.
  intros Hinit Hmeta Hget Hpost.
  destruct (decorate_attr "get" (or_empty (get_decorators meta)) base get
              Hget) as [c1 [Hrun1 [Hget1 [Hother1 _]]]].
  destruct (decorate_attr "post" (or_empty (post_decorators meta)) c1 post)
    as [c2 [Hrun2 [Hpost2 [Hother2 _]]]].
  - rewrite Hother1 by discriminate. exact Hpost.
  - exists c2. split; [|split; [|split]].
    + unfold ResourceListMeta.__init__. rewrite Hinit. simpl.
      rewrite Hmeta, Hrun1. exact Hrun2.
    + rewrite Hother2 by discriminate. exact Hget1.
    + exact Hpost2.
    + intros n Hn1 Hn2. now rewrite Hother2, Hother1.
Qed.

(** X30.  The data layer of a class under [ResourceMeta].  A class named
    in [Meta.data_layer] that does not inherit from [BaseDataLayer] stops
    the creation, with or without [data_layer_kwargs].  Otherwise: without
    [data_layer_kwargs] the class keeps the data layer it had, and neither
    the constructor nor [configure] is called: naming a class in
    [Meta.data_layer] installs nothing.  With a dict, the data layer is
    made from the class named in [Meta], or from [SqlalchemyDataLayer]
    when [Meta] names none, and configured with [Meta]: when both calls
    return, the class is bound to the instance, and when one raises, its
    exception stops the creation; a [Meta.data_layer] that is [None] makes
    [type] raise.  With anything else than a dict the creation stops. *)
Theorem meta_installs_data_layer (cls : Class) (name : string)
        (nmspc : Namespace) :
  let named :=
    match Meta_ nmspc with Some m => data_layer m | None => None end in
  let result :=
    ResourceMeta.__init__ not_allowed_method construct configure cls name
      nmspc in
  (forall c : DataLayerClass,
      named = Some (Some c) -> inherits_BaseDataLayer c = false ->
      result
      = Failed (Exception_
                  ("You must provide a data layer class inherited from "
                   ++ "BaseDataLayer in " ++ name ++ " resource")))
  /\ ((forall c : DataLayerClass,
          named = Some (Some c) -> inherits_BaseDataLayer c = true) ->
      (data_layer_kwargs nmspc = None
       \/ data_layer_kwargs nmspc = Some VNone ->
       exists cls' : Class,
         result = Created cls'
         /\ cls_data_layer cls' = cls_data_layer cls
         /\ cls_opts cls' = Meta_ nmspc)
      /\ (forall kwargs : dict,
             data_layer_kwargs nmspc = Some (VDict kwargs) ->
             named = Some None -> result = Failed TypeError_)
      /\ (forall kwargs : dict,
             data_layer_kwargs nmspc = Some (VDict kwargs) ->
             named <> Some None ->
             let data_layer_cls :=
               match named with
               | Some (Some c) => c
               | _ => SqlalchemyDataLayer
               end in
             (forall e : class_error,
                 construct data_layer_cls kwargs = Some e ->
                 result = Failed e)
             /\ (forall e : class_error,
                    construct data_layer_cls kwargs = None ->
                    configure data_layer_cls kwargs (Meta_ nmspc) = Some e ->
                    result = Failed e)
             /\ (construct data_layer_cls kwargs = None ->
                 configure data_layer_cls kwargs (Meta_ nmspc) = None ->
                 exists cls' : Class,
                   result = Created cls'
                   /\ cls_data_layer cls'
                      = Some (mkDataLayerInstance (name ++ "DataLayer")
                                data_layer_cls kwargs (Meta_ nmspc)
                                (Some name))
                   /\ cls_opts cls' = Meta_ nmspc))
      /\ (forall v : value,
             data_layer_kwargs nmspc = Some v ->
             v <> VNone -> is_dict v = false ->
             result
             = Failed (Exception_
                         ("You must provide data layer information as "
                          ++ "dictionary in " ++ name ++ " resource")))).
Proof.
  intros named result. subst named result. unfold ResourceMeta.__init__.
  split.
  - intros c Hnamed Hbase.
    destruct (Meta_ nmspc) as [meta|]; [|discriminate].
    rewrite Hnamed, Hbase. reflexivity.
  - intros Hbase.
    assert (Hgo : match match Meta_ nmspc with
                        | Some m =>
                            match data_layer m with
                            | Some c => c
                            | None => None
                            end
                        | None => None
                        end with
                  | Some c => negb (inherits_BaseDataLayer c)
                  | None => false
                  end = false).
    { destruct (Meta_ nmspc) as [meta|]; [|reflexivity].
      destruct (data_layer meta) as [[c|]|]; try reflexivity.
      now rewrite (Hbase c eq_refl). }
    rewrite Hgo. clear Hgo Hbase.
    split; [|split; [|split]].
    + intros [Hnone | Hnone]; rewrite Hnone; eexists;
        (split; [reflexivity|]); simpl;
        (destruct (Meta_ nmspc) as [meta|]; simpl;
         [destruct (disable_rest (or_empty (not_allowed_methods meta)) cls)
            as [-> _]; split; reflexivity
         |split; reflexivity]).
    + intros kwargs Hkw Hnamed. now rewrite Hkw, Hnamed.
    + intros kwargs Hkw Hnamed. rewrite Hkw.
      destruct (match Meta_ nmspc with
                | Some m => data_layer m
                | None => None
                end) as [[c|]|] eqn:Hn; try congruence; simpl;
        (split; [intros e He; now rewrite He|]);
        (split; [intros e Hc He; now rewrite Hc, He|]);
        intros Hc He; rewrite Hc, He; eexists;
        (split; [reflexivity|]); simpl;
        (destruct (Meta_ nmspc) as [meta|]; simpl; [|split; reflexivity]);
        match goal with
        | |- context [ResourceMeta.disable _ _ ?c0] =>
            destruct (disable_rest (or_empty (not_allowed_methods meta)) c0)
              as [-> _]
        end; split; reflexivity.
    + intros v Hv Hnot_none Hnot_dict. rewrite Hv.
      destruct v as [| | | | |kw]; try congruence; try discriminate;
        reflexivity.
Qed.
End Metaclasses.

(** *** The further properties on example requests *)

Lemma list_get_converts_only_invalid_field_witness :
  fst (ResourceList.get Example.unincludable Example.persons
         (Example.request_of "GET" VNone) [] Example.start)
  = Raise (JsonApi Example.invalid_include)
  /\ w_calls (snd (ResourceList.get Example.unincludable Example.persons
                     (Example.request_of "GET" VNone) [] Example.start))
     = [get_collection_call (mkQS (VDict [])) []].
Proof.
  destruct (list_get_converts_only_invalid_field Example.unincludable
              Example.persons (Example.request_of "GET" VNone) []
              Example.start (JsonApi Example.invalid_include))
    as [_ Hschema].
  apply (Hschema (0, OVal (VList []))).
  - reflexivity.
  - reflexivity.
  - intros e [= <-]. discriminate.
Defined.


Lemma list_get_ignores_view_args_witness :
  ResourceList.get Example.plain Example.persons
    (mkRequest "GET" (VDict []) [("id", VStr "7")] VNone) [] Example.start
  = ResourceList.get Example.plain Example.persons
      (Example.request_of "GET" VNone) [] Example.start.
Proof.
  apply (list_get_ignores_view_args Example.plain Example.persons
           (Example.request_of "GET" VNone) [] Example.start
           [("id", VStr "7")]).
  discriminate.
Defined.

Lemma post_created_witness :
  let doc := Example.document (Example.linkage "person" "1") in
  ResourceList.post Example.plain (Example.request_of "POST" doc) []
    Example.start
  = (Ok (HTuple [VDict [("data", VNone)]; VInt 201]),
     mkWorld Example.no_meta [create_object_call doc []]).
Proof.
  apply (post_created Example.plain
           (Example.request_of "POST"
              (Example.document (Example.linkage "person" "1")))
           [] Example.start
           (Example.document (Example.linkage "person" "1"))).
  exists (VDict []). split; reflexivity.
Defined.

Lemma messages_without_errors_key_witness :
  ResourceList.post Example.invalid_plain
    (Example.request_of "POST" (Example.document VNone)) [] Example.start
  = (Raise KeyError, Example.start)
  /\ fst (ResourceDetail.patch Example.invalid_plain
            (Example.request_of "PATCH" (Example.document VNone)) []
            Example.start)
     = Raise KeyError.
Proof.
  destruct (messages_without_errors_key Example.invalid_plain
              (Example.request_of "POST" (Example.document VNone)) []
              Example.start
              [("name", VList [VStr "Missing data for required field."])]
              422 eq_refl) as [Hpost _].
  destruct (messages_without_errors_key Example.invalid_plain
              (Example.request_of "PATCH" (Example.document VNone)) []
              Example.start
              [("name", VList [VStr "Missing data for required field."])]
              422 eq_refl) as [_ Hpatch].
  split.
  - apply Hpost. right. split; [left|]; reflexivity.
  - apply Hpatch. right. split; [left|]; reflexivity.
Defined.

Lemma post_errors_keep_other_keys_witness :
  exists (out : value) (errs' : list value),
    ResourceList.post Example.invalid_raised
      (Example.request_of "POST" (Example.document VNone)) [] Example.start
    = (Ok (HTuple [out; VInt 422]), Example.start)
    /\ py_getitem out "errors" = Ok (VList errs')
    /\ Forall2 keeps_other_keys Example.reported errs'
    /\ forall k : string,
        k <> "errors" -> py_getitem out k = py_getitem Example.messages k.
Proof.
  apply (post_errors_keep_other_keys Example.invalid_raised
           (Example.request_of "POST" (Example.document VNone)) []
           Example.start [("errors", VList Example.reported)] 422
           Example.reported).
  - right. split; [left|]; reflexivity.
  - reflexivity.
  - repeat constructor.
Defined.

Lemma single_resource_miss_witness :
  let miss :=
    Ok (HTuple
          [Example.envelope
             [Example.error_object (Example.not_found ObjectNotFound)];
           VInt 404]) in
  let route := [("id", VStr "7")] in
  fst (ResourceDetail.get Example.absent (Example.request_of "GET" VNone)
         route Example.start) = miss
  /\ fst (ResourceDetail.delete Example.absent
            (Example.request_of "DELETE" VNone) route Example.start) = miss
  /\ fst (ResourceDetail.patch Example.absent
            (Example.request_of "PATCH"
               (Example.document (Example.linkage "person" "7")))
            route Example.start) = miss.
Proof.
  split; [|split].
  - apply (single_resource_miss Example.absent
             (Example.request_of "GET" VNone) [("id", VStr "7")]
             Example.start (Example.not_found ObjectNotFound));
      reflexivity.
  - apply (single_resource_miss Example.absent
             (Example.request_of "DELETE" VNone) [("id", VStr "7")]
             Example.start (Example.not_found ObjectNotFound));
      reflexivity.
  - destruct (single_resource_miss Example.absent
                (Example.request_of "PATCH"
                   (Example.document (Example.linkage "person" "7")))
                [("id", VStr "7")] Example.start
                (Example.not_found ObjectNotFound) eq_refl eq_refl)
      as [_ [_ Hpatch]].
    apply (Hpatch (Example.document (Example.linkage "person" "7"))
                  (Example.linkage "person" "7") (VStr "7") (VStr "7")).
    + exists (VDict []). split; reflexivity.
    + reflexivity.
    + reflexivity.
    + reflexivity.
    + reflexivity.
Defined.

Lemma patch_route_without_url_field_witness :
  fst (ResourceDetail.patch Example.plain
         (Example.request_of "PATCH"
            (Example.document (Example.linkage "person" "7")))
         [("person_id", VStr "7")] Example.start)
  = Raise KeyError
  /\ w_calls (snd (ResourceDetail.patch Example.plain
                     (Example.request_of "PATCH"
                        (Example.document (Example.linkage "person" "7")))
                     [("person_id", VStr "7")] Example.start))
     = w_calls Example.start.
Proof.
  apply (patch_route_without_url_field Example.plain
           (Example.request_of "PATCH"
              (Example.document (Example.linkage "person" "7")))
           [("person_id", VStr "7")] Example.start
           (Example.document (Example.linkage "person" "7"))
           (Example.linkage "person" "7") (VStr "7")).
  - exists (VDict []). split; reflexivity.
  - reflexivity.
  - reflexivity.
  - reflexivity.
Defined.

Lemma patch_string_id_integer_route_witness :
  fst (ResourceDetail.patch Example.plain
         (Example.request_of "PATCH"
            (Example.document (Example.linkage "person" "7")))
         [("id", VInt 7)] Example.start)
  = Ok (HTuple
          [Example.envelope
             [Example.error_object
                (mkExc BadRequest "/data/id"
                   "Value of id does not match the resource identifier in url"
                   400)];
           VInt 400])
  /\ w_calls (snd (ResourceDetail.patch Example.plain
                     (Example.request_of "PATCH"
                        (Example.document (Example.linkage "person" "7")))
                     [("id", VInt 7)] Example.start))
     = w_calls Example.start.
Proof.
  apply (patch_string_id_integer_route Example.plain
           (Example.request_of "PATCH"
              (Example.document (Example.linkage "person" "7")))
           [("id", VInt 7)] Example.start
           (Example.document (Example.linkage "person" "7"))
           (Example.linkage "person" "7") "7" 7).
  - exists (VDict []). split; reflexivity.
  - reflexivity.
  - reflexivity.
  - reflexivity.
Defined.

Lemma patch_updates_fetched_object_witness :
  let doc := Example.document (Example.linkage "person" "7") in
  let route := [("id", VStr "7")] in
  fst (ResourceDetail.patch Example.plain (Example.request_of "PATCH" doc)
         route Example.start)
  = Ok (HValue (VDict [("data", VNone)]))
  /\ w_calls (snd (ResourceDetail.patch Example.plain
                     (Example.request_of "PATCH" doc) route Example.start))
     = [get_object_call route;
        update_object_call Example.person doc route].
Proof.
  apply (patch_updates_fetched_object Example.plain
           (Example.request_of "PATCH"
              (Example.document (Example.linkage "person" "7")))
           [("id", VStr "7")] Example.start
           (Example.document (Example.linkage "person" "7"))
           (Example.linkage "person" "7") (VStr "7") (VStr "7")
           Example.person).
  - exists (VDict []). split; reflexivity.
  - reflexivity.
  - reflexivity.
  - reflexivity.
  - reflexivity.
  - reflexivity.
Defined.

Lemma relationship_get_without_template_witness :
  let after :=
    snd (Relationship.get Example.plain Example.persons
           (Example.request_of "GET" VNone) [("id", VStr "7")]
           Example.start) in
  w_opts after = w_opts Example.start
  /\ w_calls after
     = [get_relation_call "computer" "id" [("id", VStr "7")]].
Proof.
  apply (relationship_get_without_template Example.plain Example.persons
           (Example.request_of "GET" VNone) [("id", VStr "7")]
           Example.start).
  reflexivity.
Defined.

Lemma relationship_get_resolves_every_key_witness :
  endpoint_kwargs
    (w_opts (snd (Relationship.get Example.plain Example.persons
                    (Example.request_of "GET" VNone) []
                    (mkWorld Example.two_keys []))))
  = Some [("person_id", OVal (VInt 7)); ("id", OVal (VInt 3))].
Proof.
  apply (relationship_get_resolves_every_key Example.plain Example.persons
           (Example.request_of "GET" VNone) []
           (mkWorld Example.two_keys []) Example.person VNone
           [("person_id", OVal (VStr "id"));
            ("id", OVal (VStr "computer.id"))]
           [("person_id", OVal (VInt 7)); ("id", OVal (VInt 3))]).
  - reflexivity.
  - repeat constructor; simpl; intuition discriminate.
  - reflexivity.
  - repeat constructor; simpl; eexists; split; reflexivity.
Defined.

Lemma relationship_get_stops_half_written_witness :
  fst (Relationship.get Example.plain Example.persons
         (Example.request_of "GET" VNone) []
         (mkWorld Example.broken_path []))
  = Raise AttributeError
  /\ endpoint_kwargs
       (w_opts (snd (Relationship.get Example.plain Example.persons
                       (Example.request_of "GET" VNone) []
                       (mkWorld Example.broken_path []))))
     = Some [("person_id", OVal (VInt 7));
             ("id", OVal (VStr "computer.serial"))].
Proof.
  apply (relationship_get_stops_half_written Example.plain Example.persons
           (Example.request_of "GET" VNone) []
           (mkWorld Example.broken_path []) Example.person VNone
           [("person_id", OVal (VStr "id"))]
           [("person_id", OVal (VInt 7))]
           "id" (OVal (VStr "computer.serial")) [] AttributeError).
  - reflexivity.
  - repeat constructor; simpl; intuition discriminate.
  - reflexivity.
  - repeat constructor; simpl; eexists; split; reflexivity.
  - reflexivity.
Defined.

Lemma relationship_get_nothing_included_witness :
  let answer :=
    Relationship.get Example.including Example.persons
      (Example.request_of "GET" VNone) [] (mkWorld Example.two_keys []) in
  fst answer = Raise KeyError
  /\ w_calls (snd answer) = [get_relation_call "computer" "id" []].
Proof.
  apply (relationship_get_nothing_included Example.including Example.persons
           (Example.request_of "GET" VNone) []
           (mkWorld Example.two_keys []) Example.person VNone tt
           [("data", VNone)]).
  - reflexivity.
  - right.
    exists [("person_id", OVal (VStr "id"));
            ("id", OVal (VStr "computer.id"))],
           [("person_id", OVal (VInt 7)); ("id", OVal (VInt 3))].
    split; [reflexivity|]. split.
    + repeat constructor; simpl; intuition discriminate.
    + repeat constructor; simpl; eexists; split; reflexivity.
  - discriminate.
  - reflexivity.
  - reflexivity.
  - reflexivity.
Defined.

Lemma list_document_forwarded_iff_well_formed_witness :
  let items := [Example.linkage "person" "1"; Example.linkage "person" "2"] in
  let doc := Example.document (VList items) in
  w_calls (snd (Relationship.post Example.plain Example.persons
                  (Example.request_of "POST" doc) [] Example.start))
  = [create_relation_call doc "id" []]
  <-> Forall (well_formed_item "person") items.
Proof.
  apply (list_document_forwarded_iff_well_formed Example.plain
           Example.persons
           (Example.request_of "POST"
              (Example.document
                 (VList [Example.linkage "person" "1";
                         Example.linkage "person" "2"])))
           [] Example.start
           [Example.linkage "person" "1"; Example.linkage "person" "2"]).
  - reflexivity.
  - repeat constructor.
Defined.

Lemma delete_lets_object_not_found_through_witness :
  let doc := Example.document (VList [Example.linkage "person" "1"]) in
  fst (Relationship.post Example.absent Example.persons
         (Example.request_of "POST" doc) [] Example.start)
  = Ok (HTuple
          [Example.envelope
             [Example.error_object (Example.not_found ObjectNotFound)];
           VInt 404])
  /\ fst (Relationship.delete Example.absent Example.persons
            (Example.request_of "DELETE" doc) [] Example.start)
     = Raise (JsonApi (Example.not_found ObjectNotFound)).
Proof.
  assert (Hitems : Forall (well_formed_item "person")
                          [Example.linkage "person" "1"]).
  { repeat constructor.
    exists [("type", VStr "person"); ("id", VStr "1")].
    repeat split. discriminate. }
  split.
  - apply (delete_lets_object_not_found_through Example.absent
             Example.persons
             (Example.request_of "POST"
                (Example.document (VList [Example.linkage "person" "1"])))
             [] Example.start [Example.linkage "person" "1"]
             (Example.not_found ObjectNotFound));
      try reflexivity; [repeat constructor | exact Hitems].
  - apply (delete_lets_object_not_found_through Example.absent
             Example.persons
             (Example.request_of "DELETE"
                (Example.document (VList [Example.linkage "person" "1"])))
             [] Example.start [Example.linkage "person" "1"]
             (Example.not_found ObjectNotFound));
      try reflexivity; [repeat constructor | exact Hitems].
Defined.

Lemma patch_list_checked_as_post_witness :
  let doc := Example.document (VList [Example.linkage "computer" "1"]) in
  Relationship.patch Example.plain (Example.persons_typed "person")
    (Example.request_of "PATCH" doc) [] Example.start
  = Relationship.post Example.plain (Example.persons_typed "person")
      (Example.request_of "PATCH" doc) [] Example.start.
Proof.
  apply (patch_list_checked_as_post Example.plain
           (Example.persons_typed "person")
           (Example.request_of "PATCH"
              (Example.document (VList [Example.linkage "computer" "1"])))
           [] Example.start [Example.linkage "computer" "1"]).
  - reflexivity.
  - reflexivity.
  - discriminate.
Defined.

Lemma empty_list_forwarded_witness :
  let doc := Example.document (VList []) in
  w_calls (snd (Relationship.post Example.plain Example.persons
                  (Example.request_of "POST" doc) [] Example.start))
  = [create_relation_call doc "id" []]
  /\ w_calls (snd (Relationship.patch Example.plain Example.persons
                     (Example.request_of "PATCH" doc) [] Example.start))
     = [update_relation_call doc "id" []]
  /\ w_calls (snd (Relationship.delete Example.plain Example.persons
                     (Example.request_of "DELETE" doc) [] Example.start))
     = [delete_relation_call doc "id" []].
Proof.
  split; [|split].
  - apply (empty_list_forwarded Example.plain Example.persons
             (Example.request_of "POST" (Example.document (VList []))) []
             Example.start).
    reflexivity.
  - apply (empty_list_forwarded Example.plain Example.persons
             (Example.request_of "PATCH" (Example.document (VList []))) []
             Example.start).
    reflexivity.
  - apply (empty_list_forwarded Example.plain Example.persons
             (Example.request_of "DELETE" (Example.document (VList []))) []
             Example.start).
    reflexivity.
Defined.

Lemma other_type_refused_through_invalid_type_witness :
  let refused (detail : string) :=
    (Ok (HTuple
           [Example.envelope
              [Example.error_object
                 (mkExc InvalidType "/data/type" detail 409)];
            VInt 409]), Example.start) in
  Relationship.delete Example.plain Example.persons
    (Example.request_of "DELETE"
       (Example.document
          (VList [Example.linkage "person" "1";
                  Example.linkage "computer" "2"])))
    [] Example.start
  = refused "The type provided does not match the resource type"
  /\ Relationship.patch Example.plain Example.persons
       (Example.request_of "PATCH"
          (Example.document (Example.linkage "computer" "2")))
       [] Example.start
     = refused "The type field does not match the resource type".
Proof.
  split.
  - destruct (other_type_refused_through_invalid_type Example.plain
                Example.persons
                (Example.request_of "DELETE"
                   (Example.document
                      (VList [Example.linkage "person" "1";
                              Example.linkage "computer" "2"])))
                [] Example.start
                [("type", VStr "computer"); ("id", VStr "2")]
                (VStr "computer")) as [Hlist _].
    + reflexivity.
    + discriminate.
    + discriminate.
    + apply (Hlist [Example.linkage "person" "1"] []).
      * reflexivity.
      * repeat constructor.
        exists [("type", VStr "person"); ("id", VStr "1")].
        repeat split. discriminate.
  - apply (other_type_refused_through_invalid_type Example.plain
             Example.persons
             (Example.request_of "PATCH"
                (Example.document (Example.linkage "computer" "2")))
             [] Example.start
             [("type", VStr "computer"); ("id", VStr "2")]
             (VStr "computer")).
    + reflexivity.
    + discriminate.
    + discriminate.
    + reflexivity.
Defined.

Lemma patch_list_needs_type_attribute_witness :
  Relationship.patch Example.plain Example.persons
    (Example.request_of "PATCH"
       (Example.document (VList [Example.linkage "person" "1"])))
    [] Example.start
  = (Raise AttributeError, Example.start).
Proof.
  apply (patch_list_needs_type_attribute Example.plain Example.persons
           (Example.request_of "PATCH"
              (Example.document (VList [Example.linkage "person" "1"])))
           [] Example.start
           [("type", VStr "person"); ("id", VStr "1")] []).
  - reflexivity.
  - reflexivity.
  - discriminate.
  - discriminate.
Defined.

Lemma meta_disables_by_lowercase_name_witness :
  let nmspc :=
    mkNamespace (Some (Example.meta_of ["GET"; "get"; "PUT"] [])) None in
  exists cls' : Class,
    ResourceMeta.__init__ Example.refused Example.made Example.configured_
      Example.collection "PersonList"
      nmspc = Created cls'
    /\ cls_attr cls' "get"
       = option_map (Nat.iter 2 Example.refused)
           (cls_attr Example.collection "get")
    /\ cls_attr cls' "post" = cls_attr Example.collection "post"
    /\ cls_attr cls' "put" = None.
Proof.
  eexists. split; [reflexivity|].
  split; [|split].
  - apply (meta_disables_by_lowercase_name Example.refused
             Example.made Example.configured_ Example.collection _ "PersonList"
             (mkNamespace (Some (Example.meta_of ["GET"; "get"; "PUT"] []))
                None)
             (Example.meta_of ["GET"; "get"; "PUT"] []) eq_refl eq_refl
             "get").
  - reflexivity.
  - reflexivity.
Defined.

Lemma disabled_unknown_verb_stays_unbound_witness :
  exists cls' : Class,
    ResourceMeta.__init__ Example.refused Example.made Example.configured_
      Example.collection "PersonList"
      (mkNamespace (Some (Example.meta_of ["PUT"] [])) None) = Created cls'
    /\ Resource.dispatch_request Example.plain (cls_attr cls')
         (Example.request_of "PUT" VNone) [] Example.start
       = (Raise AssertionError, Example.start).
Proof.
  eexists. split; [reflexivity|].
  apply (disabled_unknown_verb_stays_unbound Example.refused Example.made
           Example.configured_ Example.plain Example.collection _ "PersonList"
           (mkNamespace (Some (Example.meta_of ["PUT"] [])) None)
           (Example.request_of "PUT" VNone) [] Example.start).
  - reflexivity.
  - reflexivity.
  - left. discriminate.
Defined.

Lemma list_meta_decorates_get_and_post_witness :
  let nmspc :=
    mkNamespace (Some (Example.meta_of ["GET"] [Example.guarded])) None in
  exists cls' : Class,
    ResourceListMeta.__init__ Example.refused Example.made
      Example.configured_ Example.collection
      "PersonList" nmspc = Created cls'
    /\ cls_attr cls' "get"
       = Some (Example.guarded
                 (Example.refused
                    (ResourceList.get Example.plain Example.persons)))
    /\ cls_attr cls' "post"
       = Some (ResourceList.post Example.plain)
    /\ forall n : string,
        n <> "get" -> n <> "post" ->
        cls_attr cls' n
        = cls_attr
            (mkClass
               (fun n => if String.eqb n "get"
                         then Some (Example.refused
                                      (ResourceList.get Example.plain
                                         Example.persons))
                         else cls_attr Example.collection n)
               None
               (Some (Example.meta_of ["GET"] [Example.guarded]))) n.
Proof.
  apply (list_meta_decorates_get_and_post Example.refused Example.made
           Example.configured_ Example.collection
           _ "PersonList"
           (mkNamespace (Some (Example.meta_of ["GET"] [Example.guarded]))
              None)
           (Example.meta_of ["GET"] [Example.guarded])
           (Example.refused (ResourceList.get Example.plain Example.persons))
           (ResourceList.post Example.plain)).
  - reflexivity.
  - reflexivity.
  - reflexivity.
  - reflexivity.
Defined.

Lemma meta_installs_data_layer_witness :
  let create (kwargs : dict) :=
    ResourceMeta.__init__ Example.refused Example.made Example.wants_session
      Example.collection "PersonList"
      (mkNamespace (Some (Example.meta_of [] [])) (Some (VDict kwargs))) in
  create [] = Failed (DataLayerError "You must provide a session")
  /\ exists cls' : Class,
      create [("session", VStr "db")] = Created cls'
      /\ cls_data_layer cls'
         = Some (mkDataLayerInstance "PersonListDataLayer"
                   SqlalchemyDataLayer [("session", VStr "db")]
                   (Some (Example.meta_of [] [])) (Some "PersonList"))
      /\ cls_opts cls' = Some (Example.meta_of [] []).
Proof.
  split.
  - destruct (meta_installs_data_layer Example.refused Example.made
                Example.wants_session Example.collection "PersonList"
                (mkNamespace (Some (Example.meta_of [] []))
                   (Some (VDict []))))
      as [_ Hgo].
    destruct Hgo as [_ [_ [Hdict _]]]; [discriminate|].
    destruct (Hdict [] eq_refl) as [_ [Hconfigure _]]; [discriminate|].
    now apply Hconfigure.
  - destruct (meta_installs_data_layer Example.refused Example.made
                Example.wants_session Example.collection "PersonList"
                (mkNamespace (Some (Example.meta_of [] []))
                   (Some (VDict [("session", VStr "db")]))))
      as [_ Hgo].
    destruct Hgo as [_ [_ [Hdict _]]]; [discriminate|].
    destruct (Hdict [("session", VStr "db")] eq_refl) as [_ [_ Hmade]];
      [discriminate|].
    now apply Hmade.
Defined.
